(** * ecom-synth: the CSV to SQLite ingester (ingest_csv_to_sqlite.py)

    A shallow embedding of [CSVToSQLiteIngester] and of [main], with the
    parts of pandas, datetime and sqlite3 that the ingester calls, and the
    properties of the ingestion pipeline proved over it. *)

From Stdlib Require Import ZArith Ascii String Lia.
From Stdlib Require QArith.
From stdpp Require Import base strings list gmap pretty.

Local Open Scope Z_scope.

(** ** Python exceptions *)

Module Py.

(** The exception classes that reach the ingester. *)
Inductive exn_class : Type :=
| Exception
| ValueError
| TypeError
| IndexError
| OverflowError
| AttributeError
| OSError
| FileNotFoundError
| EmptyDataError          (* pandas.errors.EmptyDataError *)
| ParserError             (* pandas.errors.ParserError *)
| sqlite3_Error
| sqlite3_InterfaceError
| sqlite3_DatabaseError
| sqlite3_IntegrityError
| sqlite3_OperationalError
| sqlite3_ProgrammingError.

#[global] Instance exn_class_eq_dec : EqDecision exn_class.
Proof. solve_decision. Defined.

(** The class and its ancestors, nearest first. *)
Definition mro (c : exn_class) : list exn_class :=
  match c with
  | Exception => [Exception]
  | ValueError => [ValueError; Exception]
  | TypeError => [TypeError; Exception]
  | IndexError => [IndexError; Exception]
  | OverflowError => [OverflowError; Exception]
  | AttributeError => [AttributeError; Exception]
  | OSError => [OSError; Exception]
  | FileNotFoundError => [FileNotFoundError; OSError; Exception]
  | EmptyDataError => [EmptyDataError; ValueError; Exception]
  | ParserError => [ParserError; ValueError; Exception]
  | sqlite3_Error => [sqlite3_Error; Exception]
  | sqlite3_InterfaceError => [sqlite3_InterfaceError; sqlite3_Error; Exception]
  | sqlite3_DatabaseError => [sqlite3_DatabaseError; sqlite3_Error; Exception]
  | sqlite3_IntegrityError =>
      [sqlite3_IntegrityError; sqlite3_DatabaseError; sqlite3_Error; Exception]
  | sqlite3_OperationalError =>
      [sqlite3_OperationalError; sqlite3_DatabaseError; sqlite3_Error; Exception]
  | sqlite3_ProgrammingError =>
      [sqlite3_ProgrammingError; sqlite3_DatabaseError; sqlite3_Error; Exception]
  end.

Record exn : Type := mk_exn { exn_cls : exn_class; exn_msg : string }.

#[global] Instance exn_eq_dec : EqDecision exn.
Proof. solve_decision. Defined.

(** [isinstance e c], the test an [except c] clause makes. *)
Definition isinstance (e : exn) (c : exn_class) : bool :=
  bool_decide (c ∈ mro (exn_cls e)).

(** [except (c1, c2, ...)]. *)
Definition isinstance_any (e : exn) (cs : list exn_class) : bool :=
  existsb (isinstance e) cs.

(** The result of running a piece of code: a value or a raised exception. *)
Inductive outcome (A : Type) : Type :=
| Return (a : A)
| Raise (e : exn).
Arguments Return {A} a.
Arguments Raise {A} e.

#[global] Instance outcome_ret : MRet outcome := fun A a => Return a.
#[global] Instance outcome_bind : MBind outcome := fun A B k m =>
  match m with
  | Return a => k a
  | Raise e => Raise e
  end.

(** [try: body / except: handler]: the handler sees every exception and
    re-raises the ones no clause matches. *)
Definition try_except {A} (body : outcome A) (handler : exn -> outcome A)
  : outcome A :=
  match body with
  | Return a => Return a
  | Raise e => handler e
  end.

End Py.

Import Py.

(** ** Characters and number literals *)

Module Text.

Definition dquote : string := String "034"%char EmptyString.
Definition newline : string := String "010"%char EmptyString.

Definition is_digit (c : ascii) : bool :=
  match Ascii.is_nat c with Some _ => true | None => false end.

Definition digit_val (c : ascii) : nat :=
  match Ascii.is_nat c with Some n => n | None => 0%nat end.

(** C [isspace] on ASCII: blank, tab, newline, vertical tab, form feed,
    carriage return. *)
Definition is_space (c : ascii) : bool := Ascii.is_space c.

Fixpoint skip_while (p : ascii -> bool) (s : string) : string :=
  match s with
  | String c s' => if p c then skip_while p s' else s
  | EmptyString => s
  end.

Fixpoint take_while (p : ascii -> bool) (s : string) : string :=
  match s with
  | String c s' => if p c then String c (take_while p s') else EmptyString
  | EmptyString => EmptyString
  end.

Fixpoint digits_value (acc : Z) (s : string) : Z :=
  match s with
  | String c s' => digits_value (10 * acc + Z.of_nat (digit_val c)) s'
  | EmptyString => acc
  end.

Definition is_empty (s : string) : bool :=
  match s with EmptyString => true | _ => false end.

Definition lower (c : ascii) : ascii :=
  let n := nat_of_ascii c in
  if ((65 <=? n) && (n <=? 90))%nat then ascii_of_nat (n + 32) else c.

Fixpoint lowercase (s : string) : string :=
  match s with
  | String c s' => String (lower c) (lowercase s')
  | EmptyString => EmptyString
  end.

(** An optional sign: the flag tells a minus. *)
Definition scan_sign (s : string) : bool * string :=
  match s with
  | String "-" q => (true, q)
  | String "+" q => (false, q)
  | _ => (false, s)
  end.

(** The exponent part of a literal: absent, or [e]/[E], an optional sign
    and at least one digit. *)
Definition scan_exponent (s : string) : option (Z * string) :=
  match s with
  | String c q =>
      if bool_decide (lower c = "e"%char) then
        let '(neg, q) := scan_sign q in
        let ds := take_while is_digit q in
        if is_empty ds then None
        else Some ((if neg then - digits_value 0 ds else digits_value 0 ds),
                   skip_while is_digit q)
      else Some (0, s)
  | EmptyString => Some (0, s)
  end.

(** The decimal scanner of pandas' tokenizer ([precise_xstrtod], with
    trailing blanks skipped): blanks, sign, digits, an optional point and
    digits, an optional exponent, blanks, end of text; at least one digit
    in the mantissa. The result [(m, e)] stands for [m * 10^e]. *)
Definition xstrtod (s : string) : option (Z * Z) :=
  let p := skip_while is_space s in
  let '(neg, p) := scan_sign p in
  let ip := take_while is_digit p in
  let p := skip_while is_digit p in
  let '(fp, p) :=
    match p with
    | String "." q => (take_while is_digit q, skip_while is_digit q)
    | _ => (EmptyString, p)
    end in
  if is_empty (ip +:+ fp) then None
  else
    match scan_exponent p with
    | None => None
    | Some (ex, p) =>
        if is_empty (skip_while is_space p) then
          let m := digits_value 0 (ip +:+ fp) in
          Some ((if neg then - m else m), ex - Z.of_nat (String.length fp))
        else None
    end.

(** The spellings of infinity that the tokenizer accepts besides. *)
Definition is_inf_literal (s : string) : bool :=
  bool_decide (lowercase s ∈
    ["inf"; "+inf"; "-inf"; "infinity"; "+infinity"; "-infinity"]).


End Text.

(** ** pandas: dtypes, cells, columns, frames *)

Module Pandas.

(** A column's dtype, by the kind the [pd.api.types] predicates look at. *)
Inductive dtype : Type :=
| dt_integer       (* int8 .. int64, uint8 .. uint64 *)
| dt_float         (* float16 .. float64 *)
| dt_bool
| dt_datetime64    (* datetime64[ns], with or without a time zone *)
| dt_object
| dt_other.        (* complex, timedelta64, category, string, ... *)

#[global] Instance dtype_eq_dec : EqDecision dtype.
Proof. solve_decision. Defined.

Definition is_integer_dtype (d : dtype) : bool :=
  match d with dt_integer => true | _ => false end.
Definition is_float_dtype (d : dtype) : bool :=
  match d with dt_float => true | _ => false end.
Definition is_datetime64_any_dtype (d : dtype) : bool :=
  match d with dt_datetime64 => true | _ => false end.
Definition is_bool_dtype (d : dtype) : bool :=
  match d with dt_bool => true | _ => false end.
Definition is_object_dtype (d : dtype) : bool :=
  match d with dt_object => true | _ => false end.

(** A cell, as the Python object that iterating a column or a row yields.
    A float is carried by its [repr], a timestamp by its [str]. Texts are
    byte strings: a digit or a blank outside ASCII counts as neither. *)
Inductive value : Type :=
| VNone
| VNaN
| VNaT
| VInt (z : Z)
| VFloat (repr : string)
| VBool (b : bool)
| VStr (s : string)
| VTimestamp (iso : string).

#[global] Instance value_eq_dec : EqDecision value.
Proof. solve_decision. Defined.

(** [pd.isna] / [pd.isnull] on a scalar. *)
Definition isna (v : value) : bool :=
  match v with
  | VNone | VNaN | VNaT => true
  | _ => false
  end.

Definition notnull (v : value) : bool := negb (isna v).

(** [Series.dropna()]. *)
Definition dropna (vs : list value) : list value := filter (fun v => notnull v = true) vs.

(** [Series.iloc[i]]. *)
Definition iloc (vs : list value) (i : nat) : outcome value :=
  match vs !! i with
  | Some v => Return v
  | None => Raise (mk_exn IndexError "single positional indexer is out-of-bounds")
  end.

(** [str(v)]. *)
Definition py_str (v : value) : string :=
  match v with
  | VNone => "None"
  | VNaN => "nan"
  | VNaT => "NaT"
  | VInt z => pretty z
  | VFloat r => r
  | VBool true => "True"
  | VBool false => "False"
  | VStr s => s
  | VTimestamp iso => iso
  end.

(** [pd.to_numeric] on a scalar, with the default [errors='raise']. A
    number is returned as it is; [None] and the empty text become NaN; any
    other text goes through the tokenizer; any other object is refused.
    The caller drops the number, so the model keeps only whether the
    conversion succeeds and which exception it raises. *)
Definition to_numeric (v : value) : outcome unit :=
  match v with
  | VInt _ | VFloat _ | VBool _ | VNaN | VNone => Return tt
  | VStr s =>
      if Text.is_empty s then Return tt
      else if bool_decide (is_Some (Text.xstrtod s)) then Return tt
      else if Text.is_inf_literal s then Return tt
      else Raise (mk_exn ValueError ("Unable to parse string " +:+ s))
  | VNaT | VTimestamp _ => Raise (mk_exn TypeError "Invalid object type")
  end.

Record Series : Type := mk_series { s_dtype : dtype; s_values : list value }.

(** A frame: the number of rows and the named columns, in order. *)
Record DataFrame : Type := mk_df {
  df_len : nat;
  df_columns : list (string * Series)
}.

End Pandas.

Import Pandas.

(** ** datetime.strptime *)

Module Datetime.

Import Text.

Inductive directive : Type :=
| D_Y | D_m | D_d | D_H | D_M | D_S
| D_space              (* a run of blanks in the format: one or more blanks *)
| D_lit (c : ascii).

(** The format text, cut into directives. *)
Fixpoint parse_format (fmt : string) : list directive :=
  match fmt with
  | String "%" (String c rest) =>
      (match c with
       | "Y" => D_Y | "m" => D_m | "d" => D_d
       | "H" => D_H | "M" => D_M | "S" => D_S
       | _ => D_lit c
       end%char) :: parse_format rest
  | String c rest =>
      (if is_space c then D_space else D_lit c) :: parse_format rest
  | EmptyString => []
  end.

(** A field of two digits when [ok2] accepts them, else of one digit when
    [ok1] accepts it: the alternatives of the directive's pattern, the
    longer ones first. *)
Definition two_or_one (ok2 : nat -> nat -> bool) (ok1 : nat -> bool)
    (s : string) : option (nat * string) :=
  match s with
  | String a (String b rest) =>
      if is_digit a && is_digit b && ok2 (digit_val a) (digit_val b)
      then Some (10 * digit_val a + digit_val b, rest)%nat
      else if is_digit a && ok1 (digit_val a)
      then Some (digit_val a, String b rest)
      else None
  | String a EmptyString =>
      if is_digit a && ok1 (digit_val a) then Some (digit_val a, EmptyString)
      else None
  | EmptyString => None
  end.

Definition four_digits (s : string) : option (nat * string) :=
  match s with
  | String a (String b (String c (String d rest))) =>
      if is_digit a && is_digit b && is_digit c && is_digit d
      then Some (1000 * digit_val a + 100 * digit_val b
                 + 10 * digit_val c + digit_val d, rest)%nat
      else None
  | _ => None
  end.

(** The fields read so far. *)
Record fields : Type := mk_fields {
  f_year : nat; f_month : nat; f_day : nat;
  f_hour : nat; f_minute : nat; f_second : nat
}.

Definition initial_fields : fields := mk_fields 1900 1 1 0 0 0.

Definition match_directive (d : directive) (f : fields) (s : string)
  : option (fields * string) :=
  match d with
  | D_Y =>
      '(n, rest) ← four_digits s;
      Some (mk_fields n (f_month f) (f_day f) (f_hour f) (f_minute f) (f_second f), rest)
  | D_m =>
      '(n, rest) ← two_or_one
         (fun a b => ((a =? 1) && (b <=? 2) || (a =? 0) && (1 <=? b))%nat)
         (fun a => (1 <=? a)%nat) s;
      Some (mk_fields (f_year f) n (f_day f) (f_hour f) (f_minute f) (f_second f), rest)
  | D_d =>
      match s with
      | String " " (String b rest) =>
          if is_digit b && (1 <=? digit_val b)%nat
          then Some (mk_fields (f_year f) (f_month f) (digit_val b)
                       (f_hour f) (f_minute f) (f_second f), rest)
          else None
      | _ =>
          '(n, rest) ← two_or_one
             (fun a b => ((a =? 3) && (b <=? 1) || (1 <=? a) && (a <=? 2)
                          || (a =? 0) && (1 <=? b))%nat)
             (fun a => (1 <=? a)%nat) s;
          Some (mk_fields (f_year f) (f_month f) n (f_hour f) (f_minute f) (f_second f), rest)
      end
  | D_H =>
      '(n, rest) ← two_or_one
         (fun a b => ((a =? 2) && (b <=? 3) || (a <=? 1))%nat) (fun _ => true) s;
      Some (mk_fields (f_year f) (f_month f) (f_day f) n (f_minute f) (f_second f), rest)
  | D_M =>
      '(n, rest) ← two_or_one (fun a _ => (a <=? 5)%nat) (fun _ => true) s;
      Some (mk_fields (f_year f) (f_month f) (f_day f) (f_hour f) n (f_second f), rest)
  | D_S =>
      '(n, rest) ← two_or_one
         (fun a b => ((a =? 6) && (b <=? 1) || (a <=? 5))%nat) (fun _ => true) s;
      Some (mk_fields (f_year f) (f_month f) (f_day f) (f_hour f) (f_minute f) n, rest)
  | D_space =>
      match s with
      | String c rest => if is_space c then Some (f, skip_while is_space rest) else None
      | EmptyString => None
      end
  | D_lit c =>
      match s with
      | String c' rest => if bool_decide (c' = c) then Some (f, rest) else None
      | EmptyString => None
      end
  end.

Fixpoint match_format (ds : list directive) (f : fields) (s : string)
  : option (fields * string) :=
  match ds with
  | [] => Some (f, s)
  | d :: ds' => '(f', rest) ← match_directive d f s; match_format ds' f' rest
  end.

Definition is_leap (y : nat) : bool :=
  ((y mod 4 =? 0) && (negb (y mod 100 =? 0) || (y mod 400 =? 0)))%nat.

Definition days_in_month (y m : nat) : nat :=
  match m with
  | 2 => if is_leap y then 29 else 28
  | 4 | 6 | 9 | 11 => 30
  | _ => 31
  end%nat.

(** The checks of the [datetime] constructor on the fields. *)
Definition valid_fields (f : fields) : bool :=
  ((1 <=? f_year f) && (f_day f <=? days_in_month (f_year f) (f_month f))
   && (f_second f <=? 59))%nat.

(** [datetime.strptime(data, fmt)]: the pattern of the format must match
    the whole text and the fields must make a date; else ValueError. The
    parsed date is dropped by the caller. *)
Definition strptime (data fmt : string) : outcome unit :=
  match match_format (parse_format fmt) initial_fields data with
  | Some (f, EmptyString) =>
      if valid_fields f then Return tt
      else Raise (mk_exn ValueError "day is out of range for month")
  | Some (_, String _ _) => Raise (mk_exn ValueError "unconverted data remains")
  | None => Raise (mk_exn ValueError "time data does not match format")
  end.

End Datetime.

(** ** The ingester: type inference *)

(** [CSVToSQLiteIngester.detect_sqlite_type(dtype, sample_values)]. *)
Definition detect_sqlite_type (dtype : dtype) (sample_values : list value)
  : outcome string :=
  if is_integer_dtype dtype then Return "INTEGER"
  else if is_float_dtype dtype then Return "REAL"
  else if is_datetime64_any_dtype dtype then Return "TEXT"
  else if is_bool_dtype dtype then Return "INTEGER"
  else if is_object_dtype dtype then
    try_except
      (arg ← (if (0 <? length (dropna sample_values))%nat
              then iloc (dropna sample_values) 0
              else Return (VStr "0"));
       to_numeric arg;;
       Return "REAL")
      (fun e =>
         if isinstance_any e [ValueError; TypeError; IndexError] then
           early ←
             (if (0 <? length (dropna sample_values))%nat then
                v ← iloc (dropna sample_values) 0;
                let sample := py_str v in
                try_except
                  (Datetime.strptime sample "%Y-%m-%d";; Return (Some "TEXT"))
                  (fun e1 =>
                     if isinstance e1 ValueError then
                       try_except
                         (Datetime.strptime sample "%Y-%m-%d %H:%M:%S";;
                          Return (Some "TEXT"))
                         (fun e2 =>
                            if isinstance_any e2 [ValueError; TypeError]
                            then Return None
                            else Raise e2)
                     else Raise e1)
              else Return None);
           match early with
           | Some ty => Return ty
           | None => Return "TEXT"
           end
         else Raise e)
  else Return "TEXT".

(** ** The decision order of the specification *)

Module Spec.

(** The storage types of the specification. *)
Inductive storage_type : Type := INTEGER | REAL | TEXT.

#[global] Instance storage_type_eq_dec : EqDecision storage_type.
Proof. solve_decision. Defined.

Definition storage_name (t : storage_type) : string :=
  match t with
  | INTEGER => "INTEGER"
  | REAL => "REAL"
  | TEXT => "TEXT"
  end.

Definition succeeds {A} (m : outcome A) : bool :=
  match m with Return _ => true | Raise _ => false end.

(** "parses as a number". *)
Definition parses_as_number (v : value) : bool := succeeds (to_numeric v).

(** "a date in one of two fixed formats". *)
Definition matches_date_format (v : value) : bool :=
  succeeds (Datetime.strptime (py_str v) "%Y-%m-%d")
  || succeeds (Datetime.strptime (py_str v) "%Y-%m-%d %H:%M:%S").

(** "the first non-absent sample". *)
Definition first_sample (vs : list value) : option value := head (dropna vs).

(** The five steps of the specification, first match wins; a column of
    any other representation falls through to TEXT. *)
Definition infer_storage_type (dt : dtype) (vs : list value) : storage_type :=
  if is_integer_dtype dt then INTEGER
  else if is_float_dtype dt then REAL
  else if is_bool_dtype dt then INTEGER
  else if is_datetime64_any_dtype dt then TEXT
  else if is_object_dtype dt then
    match first_sample vs with
    | Some v =>
        if parses_as_number v then REAL
        else if matches_date_format v then TEXT
        else TEXT
    | None => TEXT
    end
  else TEXT.



End Spec.


(** ** The SQL the ingester writes *)

Module Sql.

Import Text Spec.

(** [sep.join(items)]. *)
Fixpoint py_join (sep : string) (items : list string) : string :=
  match items with
  | [] => EmptyString
  | x :: rest =>
      match rest with
      | [] => x
      | _ :: _ => x +:+ sep +:+ py_join sep rest
      end
  end.

Definition quoted (name : string) : string := dquote +:+ name +:+ dquote.

(** A column of a table declaration. *)
Record column_decl : Type := mk_column {
  col_name : string;
  col_type : storage_type;
  col_primary_key : bool
}.

(** A foreign key: the column, the referenced table and its column. *)
Definition foreign_key : Type := (string * string * string)%type.

(** A table declaration. *)
Record table_decl : Type := mk_table_decl {
  td_name : string;
  td_columns : list column_decl;
  td_foreign_keys : list foreign_key
}.

#[global] Instance column_decl_eq_dec : EqDecision column_decl.
Proof. solve_decision. Defined.
#[global] Instance table_decl_eq_dec : EqDecision table_decl.
Proof. solve_decision. Defined.

(** The statements the ingester sends. *)
Inductive statement : Type :=
| Pragma_foreign_keys (on : bool)
| Drop_table_if_exists (table_name : string)
| Create_table_if_not_exists (decl : table_decl)
| Create_index_if_not_exists (index_name table_name column : string)
| Insert_into (table_name : string) (columns : list string).

Definition sql_column (c : column_decl) : string :=
  quoted (col_name c) +:+ " " +:+ storage_name (col_type c)
  +:+ (if col_primary_key c then " PRIMARY KEY NOT NULL" else EmptyString).

Definition sql_foreign_key (fk : foreign_key) : string :=
  let '(fk_col, ref_table, ref_col) := fk in
  "FOREIGN KEY (" +:+ quoted fk_col +:+ ") REFERENCES " +:+ ref_table
  +:+ "(" +:+ quoted ref_col +:+ ")".

Fixpoint concat_strings (l : list string) : string :=
  match l with
  | [] => EmptyString
  | x :: rest => x +:+ concat_strings rest
  end.

(** The text of a table declaration: the header, one indented line per
    column, one more per foreign key, the closing line. *)
Definition sql_create_table (d : table_decl) : string :=
  "CREATE TABLE IF NOT EXISTS " +:+ td_name d +:+ " (" +:+ newline
  +:+ py_join ("," +:+ newline)
        (map (fun c => "    " +:+ sql_column c) (td_columns d))
  +:+ concat_strings
        (map (fun fk => "," +:+ newline +:+ "    " +:+ sql_foreign_key fk)
           (td_foreign_keys d))
  +:+ newline +:+ ");".

(** The text of a statement, as the ingester formats it. *)
Definition sql_text (st : statement) : string :=
  match st with
  | Pragma_foreign_keys on =>
      "PRAGMA foreign_keys = " +:+ (if on then "ON" else "OFF")
  | Drop_table_if_exists t => "DROP TABLE IF EXISTS " +:+ t +:+ ";"
  | Create_table_if_not_exists d => sql_create_table d
  | Create_index_if_not_exists i t c =>
      "CREATE INDEX IF NOT EXISTS " +:+ i +:+ " ON " +:+ t
      +:+ "(" +:+ quoted c +:+ ");"
  | Insert_into t cols =>
      "INSERT INTO " +:+ t +:+ " (" +:+ py_join "," (map quoted cols)
      +:+ ") VALUES (" +:+ py_join "," (map (fun _ => "?") cols) +:+ ")"
  end.

End Sql.

Import Sql.

(** ** The ingester: schema generation *)

(** A [for] loop whose body may raise. *)
Fixpoint for_each {A S : Type} (items : list A) (body : S -> A -> outcome S)
    (acc : S) : outcome S :=
  match items with
  | [] => Return acc
  | x :: rest => acc' ← body acc x; for_each rest body acc'
  end.

(** [CSVToSQLiteIngester.create_table_schema(df, table_name, primary_key,
    foreign_keys)]. *)
Definition create_table_schema (df : DataFrame) (table_name : string)
    (primary_key : option string) (foreign_keys : option (list foreign_key))
  : outcome string :=
  columns ← for_each (df_columns df)
    (fun columns '(col, series) =>
       dtype ← detect_sqlite_type (s_dtype series) (s_values series);
       let col_def := Text.dquote +:+ col +:+ Text.dquote +:+ " " +:+ dtype in
       let col_def :=
         if bool_decide (Some col = primary_key)
         then col_def +:+ " PRIMARY KEY NOT NULL" else col_def in
       Return (columns ++ [col_def]))
    [];
  let create_sql :=
    "CREATE TABLE IF NOT EXISTS " +:+ table_name +:+ " (" +:+ Text.newline in
  let create_sql :=
    create_sql +:+ py_join ("," +:+ Text.newline)
                     (map (fun col => "    " +:+ col) columns) in
  let create_sql :=
    match foreign_keys with
    | Some ((_ :: _) as fks) =>
        fold_left
          (fun create_sql '(fk_col, ref_table, ref_col) =>
             create_sql +:+ "," +:+ Text.newline +:+ "    FOREIGN KEY ("
             +:+ Text.dquote +:+ fk_col +:+ Text.dquote +:+ ") REFERENCES "
             +:+ ref_table +:+ "(" +:+ Text.dquote +:+ ref_col +:+ Text.dquote
             +:+ ")")
          fks create_sql
    | _ => create_sql
    end in
  Return (create_sql +:+ Text.newline +:+ ");").

(** The type a column is declared with: the decision of the specification,
    with REAL for an object column that has no non-absent value. *)
Definition declared_type (series : Series) : Spec.storage_type :=
  if is_object_dtype (s_dtype series) && bool_decide (dropna (s_values series) = [])
  then Spec.REAL
  else Spec.infer_storage_type (s_dtype series) (s_values series).

(** The declaration that the text of [create_table_schema] denotes. *)
Definition table_declaration (df : DataFrame) (table_name : string)
    (primary_key : option string) (foreign_keys : option (list foreign_key))
  : table_decl :=
  {| td_name := table_name;
     td_columns :=
       map (fun '(col, series) =>
              mk_column col (declared_type series)
                (bool_decide (Some col = primary_key)))
         (df_columns df);
     td_foreign_keys := default [] foreign_keys |}.


(** ** The ingester: loading *)

(** What the ingester prints. *)
Inductive event : Type :=
| Banner
| Connected (db_path : string)
| Connect_error (e : exn)
| Closed
| Processing (csv_path : string)
| Read_rows (n : nat)
| Created_table (table_name : string)
| Creating_indexes (columns : list string)
| Index_warning (index_name : string) (e : exn)
| Row_warning (position : nat) (e : exn)
| Row_data (data : list (string * value))
| Inserted_rows (n : nat) (table_name : string)
| Success
| Saved (db_path : string)
| Error_message (e : exn)
| Database_error (e : exn)
| Unexpected_error (e : exn).

(** What a method does besides using the connection: it prints, and it
    writes an entry of [self.ingestion_stats]. *)
Inductive effect : Type :=
| Print (ev : event)
| Set_stat (table_name : string) (rows : nat).

(** A method of the ingester, run on a connection of type [C]: its result
    or exception, the connection afterwards, and its effects in order. *)
Definition M (C A : Type) : Type := C -> outcome A * C * list effect.

#[global] Instance M_ret {C} : MRet (M C) := fun A a c => (Return a, c, []).
#[global] Instance M_bind {C} : MBind (M C) := fun A B k m c =>
  match m c with
  | (Return a, c', out) =>
      let '(r, c'', out') := k a c' in (r, c'', out ++ out')
  | (Raise e, c', out) => (Raise e, c', out)
  end.

Definition raise {C A} (e : exn) : M C A := fun c => (Raise e, c, []).

Definition lift {C A} (o : outcome A) : M C A := fun c => (o, c, []).

Definition print {C} (ev : event) : M C unit := fun c => (Return tt, c, [Print ev]).

Definition set_stat {C} (table_name : string) (rows : nat) : M C unit :=
  fun c => (Return tt, c, [Set_stat table_name rows]).

(** [try: body / except ...: handler]. *)
Definition try_catch {C A} (body : M C A) (handler : exn -> M C A) : M C A :=
  fun c =>
    match body c with
    | (Return a, c', out) => (Return a, c', out)
    | (Raise e, c', out) =>
        let '(r, c'', out') := handler e c' in (r, c'', out ++ out')
    end.

(** A [for] loop in a method. *)
Fixpoint for_loop {C A S : Type} (items : list A) (body : S -> A -> M C S)
    (acc : S) : M C S :=
  match items with
  | [] => mret acc
  | x :: rest => acc' ← body acc x; for_loop rest body acc'
  end.

(** The entries of [self.ingestion_stats] after some effects. *)
Fixpoint stats_after (stats : gmap string nat) (out : list effect)
  : gmap string nat :=
  match out with
  | [] => stats
  | Set_stat t n :: rest => stats_after (<[t := n]> stats) rest
  | Print _ :: rest => stats_after stats rest
  end.

(** What was printed. *)
Definition printed (out : list effect) : list event :=
  omap (fun ef => match ef with Print ev => Some ev | Set_stat _ _ => None end) out.

(** Python's blanks for [str.strip]: the C blanks and the four ASCII
    separators. *)
Definition py_isspace (c : ascii) : bool :=
  Text.is_space c
  || ((28 <=? nat_of_ascii c) && (nat_of_ascii c <=? 31))%nat.

Fixpoint py_rstrip (s : string) : string :=
  match s with
  | EmptyString => EmptyString
  | String c s' =>
      let r := py_rstrip s' in
      if Text.is_empty r && py_isspace c then EmptyString else String c r
  end.

(** [s.strip()]. *)
Definition py_strip (s : string) : string :=
  py_rstrip (Text.skip_while py_isspace s).

(** [df.columns = df.columns.str.strip()]. *)
Definition strip_columns (df : DataFrame) : DataFrame :=
  mk_df (df_len df) (map (fun '(col, series) => (py_strip col, series)) (df_columns df)).

(** [Series.astype(str)]. *)
Definition astype_str (series : Series) : Series :=
  mk_series dt_object (map (fun v => VStr (py_str v)) (s_values series)).

(** [Series.where(pd.notnull(series), None)]. *)
Definition where_notnull_else_None (series : Series) : Series :=
  mk_series (s_dtype series)
    (map (fun v => if notnull v then v else VNone) (s_values series)).

(** The loop that prepares the columns for insertion. *)
Definition prepare_columns (df : DataFrame) : DataFrame :=
  mk_df (df_len df)
    (map (fun '(col, series) =>
            (col,
             if is_datetime64_any_dtype (s_dtype series) then astype_str series
             else if bool_decide (s_dtype series = dt_object)
                  then where_notnull_else_None series
                  else series))
       (df_columns df)).

(** [df.iterrows()]: the index labels 0, 1, ... with the cells of each row,
    a missing cell of a short column read as NaN. The cells are the objects
    that iterating the row yields; the common dtype that pandas gives the
    row of a frame of numeric columns only is outside the model. *)
Definition iterrows (df : DataFrame) : list (nat * list value) :=
  map (fun idx =>
         (idx, map (fun '(_, series) => default VNaN (s_values series !! idx))
                 (df_columns df)))
    (seq 0 (df_len df)).

(** The inner loop: a row as the values to bind. *)
Definition row_values_of (row : list value) : list value :=
  fold_left (fun row_values val =>
               if isna val then row_values ++ [VNone] else row_values ++ [val])
    row [].

(** One entry of the ingestion plan. *)
Record config_entry : Type := mk_config {
  cfg_csv : string;
  cfg_table : string;
  cfg_primary_key : option string;
  cfg_foreign_keys : option (list foreign_key);
  cfg_indexes : option (list string)
}.

(** The plan of [main]. *)
Definition ingestion_config : list config_entry :=
  [ mk_config "Products.csv" "Products" (Some "product_id") None
      (Some ["category"; "brand"; "price"]);
    mk_config "Customers.csv" "Customers" (Some "customer_id") None
      (Some ["city"; "state"; "country"; "loyalty_points"]);
    mk_config "Orders.csv" "Orders" (Some "order_id")
      (Some [("customer_id", "Customers", "customer_id")])
      (Some ["customer_id"; "order_date"; "status"; "total_amount"]);
    mk_config "Order_Items.csv" "Order_Items" (Some "order_item_id")
      (Some [("order_id", "Orders", "order_id");
             ("product_id", "Products", "product_id")])
      (Some ["order_id"; "product_id"]);
    mk_config "Payments.csv" "Payments" (Some "payment_id")
      (Some [("order_id", "Orders", "order_id")])
      (Some ["order_id"; "payment_method"; "status"; "payment_date"]) ].

Section Ingester.

(** The connection, as the [sqlite3] module offers it. A statement that
    raises may still change the connection (a transaction begins before
    the statement runs). [rollback] is taken on an open connection, where
    it does not raise. *)
Context {C : Type}.
Variable db_connect : string -> outcome C.
Variable db_execute : statement -> list value -> C -> outcome unit * C.
Variable db_commit : C -> outcome unit * C.
Variable db_rollback : C -> C.

(** The file system: [os.path.exists] and what [pd.read_csv(path,
    encoding='utf-8')] gives. *)
Variable path_exists : string -> bool.
Variable read_csv : string -> outcome DataFrame.

(** [generate_summary], which reads the statistics and queries the
    tables to print its report. *)
Variable generate_summary : gmap string nat -> M C unit.

Definition execute (st : statement) (params : list value) : M C unit :=
  fun c => let '(r, c') := db_execute st params c in (r, c', []).

Definition commit : M C unit :=
  fun c => let '(r, c') := db_commit c in (r, c', []).

Definition rollback : M C unit :=
  fun c => (Return tt, db_rollback c, []).

(** [create_indexes(table_name, indexes)]. *)
Definition create_indexes (table_name : string) (indexes : list string)
  : M C unit :=
  for_loop indexes
    (fun _ col =>
       let index_name := "idx_" +:+ table_name +:+ "_" +:+ col in
       try_catch
         (execute (Create_index_if_not_exists index_name table_name col) [])
         (fun e =>
            if isinstance e sqlite3_Error
            then print (Index_warning index_name e)
            else raise e))
    tt.

(** The part of [ingest_csv] from the schema to the indexes. *)
Definition recreate_table (df : DataFrame) (table_name : string)
    (primary_key : option string) (foreign_keys : option (list foreign_key))
    (indexes : option (list string)) : M C unit :=
  create_sql ← lift (create_table_schema df table_name primary_key foreign_keys);
  execute (Pragma_foreign_keys false) [];;
  execute (Drop_table_if_exists table_name) [];;
  execute (Pragma_foreign_keys true) [];;
  execute (Create_table_if_not_exists
             (table_declaration df table_name primary_key foreign_keys)) [];;
  print (Created_table table_name);;
  match indexes with
  | Some ((_ :: _) as indexes) =>
      print (Creating_indexes indexes);;
      create_indexes table_name indexes
  | _ => mret tt
  end.

(** The body of the row loop. *)
Definition insert_row (insert_sql : statement) (columns : list string)
    (rows_inserted : nat) (item : nat * list value) : M C nat :=
  let '(idx, row) := item in
  let row_values := row_values_of row in
  try_catch
    (execute insert_sql row_values;;
     mret (rows_inserted + 1)%nat)
    (fun e =>
       if isinstance e sqlite3_Error then
         print (Row_warning (idx + 1) e);;
         print (Row_data (zip columns row_values));;
         mret rows_inserted
       else raise e).

(** The part of [ingest_csv] that prepares and inserts the rows. *)
Definition insert_rows (df : DataFrame) (table_name : string) : M C nat :=
  let df := prepare_columns df in
  let insert_sql := Insert_into table_name (map fst (df_columns df)) in
  for_loop (iterrows df) (insert_row insert_sql (map fst (df_columns df))) 0%nat.

(** The [try] block of [ingest_csv] once the file is read. *)
Definition ingest_frame (df : DataFrame) (table_name : string)
    (primary_key : option string) (foreign_keys : option (list foreign_key))
    (indexes : option (list string)) : M C nat :=
  print (Read_rows (df_len df));;
  let df := strip_columns df in
  recreate_table df table_name primary_key foreign_keys indexes;;
  rows_inserted ← insert_rows df table_name;
  commit;;
  print (Inserted_rows rows_inserted table_name);;
  set_stat table_name rows_inserted;;
  mret rows_inserted.

(** [ingest_csv(csv_path, table_name, primary_key, foreign_keys, indexes)]. *)
Definition ingest_csv (csv_path table_name : string)
    (primary_key : option string) (foreign_keys : option (list foreign_key))
    (indexes : option (list string)) : M C nat :=
  if negb (path_exists csv_path) then
    raise (mk_exn FileNotFoundError ("CSV file not found: " +:+ csv_path))
  else
    print (Processing csv_path);;
    try_catch
      (df ← lift (read_csv csv_path);
       ingest_frame df table_name primary_key foreign_keys indexes)
      (fun e =>
         if isinstance e EmptyDataError then
           raise (mk_exn ValueError ("CSV file is empty: " +:+ csv_path))
         else if isinstance e ParserError then
           raise (mk_exn ValueError
                    ("Error parsing CSV file " +:+ csv_path +:+ ": " +:+ exn_msg e))
         else if isinstance e sqlite3_Error then
           rollback;;
           raise (mk_exn sqlite3_Error
                    ("Database error while ingesting " +:+ csv_path
                     +:+ ": " +:+ exn_msg e))
         else if isinstance e Exception then
           rollback;;
           raise (mk_exn Exception
                    ("Unexpected error while ingesting " +:+ csv_path
                     +:+ ": " +:+ exn_msg e))
         else raise e).

(** *** The row loop, told row by row *)

(** A row as it was sent: its index label, the values bound, and what the
    connection answered. *)
Record attempt : Type := mk_attempt {
  at_idx : nat;
  at_values : list value;
  at_result : outcome unit
}.

(** NULL-normalization of a cell. *)
Definition null_normalize (v : value) : value := if isna v then VNone else v.

(** The rows sent in order on a connection, and the connection after. *)
Fixpoint row_attempts (insert_sql : statement) (rows : list (nat * list value))
    (c : C) : list attempt * C :=
  match rows with
  | [] => ([], c)
  | (idx, row) :: rest =>
      let params := map null_normalize row in
      let '(r, c') := db_execute insert_sql params c in
      let '(attempts, c'') := row_attempts insert_sql rest c' in
      (mk_attempt idx params r :: attempts, c'')
  end.

Definition accepted (attempts : list attempt) : nat :=
  length (filter (fun a => Spec.succeeds (at_result a) = true) attempts).


(** The two lines printed for each row that was refused. *)
Definition row_warnings (columns : list string) (attempts : list attempt)
  : list effect :=
  flat_map
    (fun a =>
       match at_result a with
       | Return _ => []
       | Raise e =>
           [Print (Row_warning (at_idx a + 1) e);
            Print (Row_data (zip columns (at_values a)))]
       end)
    attempts.


(** [connect()]: the connection opened, or the exception; with it the
    [self.conn] attribute, which is set as soon as the connection is
    opened, also when the pragma raises. *)
Definition connect (db_path : string) : outcome C * option C * list effect :=
  match db_connect db_path with
  | Return c =>
      match db_execute (Pragma_foreign_keys true) [] c with
      | (Return _, c') => (Return c', Some c', [Print (Connected db_path)])
      | (Raise e, c') =>
          (Raise e, Some c',
           if isinstance e sqlite3_Error then [Print (Connect_error e)] else [])
      end
  | Raise e =>
      (Raise e, None,
       if isinstance e sqlite3_Error then [Print (Connect_error e)] else [])
  end.

(** [close()]. *)
Definition close (conn : option C) : list effect :=
  match conn with Some _ => [Print Closed] | None => [] end.

(** The [except] clauses of [main]: each prints and calls [sys.exit(1)]. *)
Definition main_except (e : exn) : option (Z * list effect) :=
  if isinstance e FileNotFoundError then Some (1, [Print (Error_message e)])
  else if isinstance e sqlite3_Error then Some (1, [Print (Database_error e)])
  else if isinstance e Exception then Some (1, [Print (Unexpected_error e)])
  else None.

(** The exit status of a run that ends with [r]: 0 on a normal return, the
    argument of [sys.exit] when a clause catches the exception, 1 for an
    exception that nothing catches. *)
Definition exit_status {A} (r : outcome A) : Z * list effect :=
  match r with
  | Return _ => (0, [])
  | Raise e => default (1, []) (main_except e)
  end.

(** The [try] block of [main] after the connection, on a given plan. *)
Definition main_body (config : list config_entry) : M C unit :=
  fun c =>
    let '(r, c', out1) :=
      for_loop config
        (fun _ config =>
           ingest_csv (cfg_csv config) (cfg_table config)
             (cfg_primary_key config) (cfg_foreign_keys config)
             (cfg_indexes config);;
           mret tt)
        tt c in
    match r with
    | Return _ =>
        let '(r, c'', out2) :=
          (generate_summary (stats_after ∅ out1);;
           print Success;;
           print (Saved "ecommerce.db")) c' in
        (r, c'', out1 ++ out2)
    | Raise e => (Raise e, c', out1)
    end.

(** [main()], on a given plan: the exit status, the connection that was
    closed, and the effects. *)
Definition main_on (config : list config_entry)
  : Z * option C * list effect :=
  match connect "ecommerce.db" with
  | (Raise e, conn, out) =>
      let '(status, out') := exit_status (@Raise unit e) in
      (status, conn, [Print Banner] ++ out ++ out' ++ close conn)
  | (Return c, _, out) =>
      let '(r, c', out1) := main_body config c in
      let '(status, out2) := exit_status r in
      (status, Some c', [Print Banner] ++ out ++ out1 ++ out2 ++ close (Some c'))
  end.

(** [main()]. *)
Definition main : Z * option C * list effect := main_on ingestion_config.

End Ingester.


(** ** SQLite, as the ingester uses it *)

Module Sqlite.

Import Spec.
Abbreviation Q := QArith_base.Q.

(** A stored value, by storage class. A real is an exact fraction in
    lowest terms. *)
Inductive sqlval : Type :=
| SNull
| SInteger (z : Z)
| SReal (q : Q)
| SText (s : string).

#[global] Instance Q_eq_dec : EqDecision Q.
Proof. solve_decision. Defined.
#[global] Instance sqlval_eq_dec : EqDecision sqlval.
Proof. solve_decision. Defined.

Record table : Type := mk_table {
  tbl_decl : table_decl;
  tbl_rows : list (list sqlval)
}.

(** The tables by name, and the indexes by name with their table and
    column. *)
Record database : Type := mk_db {
  db_tables : gmap string table;
  db_indexes : gmap string (string * string)
}.

(** A connection of the [sqlite3] module: the database as the connection
    sees it, the database as last committed, whether a transaction is
    open, and the foreign-key pragma. *)
Record connection : Type := mk_conn {
  cn_db : database;
  cn_committed : database;
  cn_in_transaction : bool;
  cn_foreign_keys : bool
}.

(** The number that the literal [m * 10^e] denotes. *)
Definition decimal (m e : Z) : Q :=
  Qreduction.Qred
    (if 0 <=? e then QArith_base.Qmake (m * 10 ^ e) 1
     else QArith_base.Qmake m (Z.to_pos (10 ^ (- e)))).

Definition in_int64 (z : Z) : bool :=
  (- 2 ^ 63 <=? z) && (z <? 2 ^ 63).

(** Binding a Python value to a placeholder. *)
Definition bind_param (v : value) : outcome sqlval :=
  match v with
  | VNone | VNaN => Return SNull
  | VInt z =>
      if in_int64 z then Return (SInteger z)
      else Raise (mk_exn OverflowError
                    "Python int too large to convert to SQLite INTEGER")
  | VFloat r =>
      match Text.xstrtod r with
      | Some (m, e) => Return (SReal (decimal m e))
      | None => Return SNull
      end
  | VBool b => Return (SInteger (if b then 1 else 0))
  | VStr s => Return (SText s)
  | VTimestamp iso => Return (SText iso)
  | VNaT => Raise (mk_exn sqlite3_InterfaceError
                     "Error binding parameter - probably unsupported type.")
  end.

(** A number under INTEGER affinity: an integer when it is whole and fits. *)
Definition as_integer (q : Q) : sqlval :=
  let q := Qreduction.Qred q in
  if bool_decide (QArith_base.Qden q = 1%positive) && in_int64 (QArith_base.Qnum q)
  then SInteger (QArith_base.Qnum q) else SReal q.

(** Column affinity: what is stored for a bound value in a column of the
    declared type. A text that is no number literal is stored as text in
    any column. *)
Definition apply_affinity (t : storage_type) (v : value) (b : sqlval) : sqlval :=
  match t, b with
  | _, SNull => SNull
  | TEXT, SInteger z => SText (pretty z)
  | TEXT, SReal _ => match v with VFloat r => SText r | _ => b end
  | TEXT, SText _ => b
  | INTEGER, SInteger _ => b
  | INTEGER, SReal q => as_integer q
  | INTEGER, SText s =>
      match Text.xstrtod s with
      | Some (m, e) => as_integer (decimal m e)
      | None => b
      end
  | REAL, SInteger z => SReal (decimal z 0)
  | REAL, SReal _ => b
  | REAL, SText s =>
      match Text.xstrtod s with
      | Some (m, e) => SReal (decimal m e)
      | None => b
      end
  end.

(** Equality of stored values, as a key comparison makes it. *)
Definition sql_eq (a b : sqlval) : bool :=
  match a, b with
  | SInteger x, SInteger y => bool_decide (x = y)
  | SReal p, SReal q => bool_decide (p = q)
  | SInteger x, SReal q | SReal q, SInteger x => bool_decide (decimal x 0 = q)
  | SText s, SText t => bool_decide (s = t)
  | _, _ => false
  end.

Definition column_names (d : table_decl) : list string :=
  map col_name (td_columns d).

(** The first position of an item in a list. *)
Fixpoint position {A} `{EqDecision A} (x : A) (items : list A) : option nat :=
  match items with
  | [] => None
  | y :: rest =>
      if bool_decide (y = x) then Some 0%nat
      else S <$> position x rest
  end.

Definition cell (row : list sqlval) (i : nat) : sqlval := default SNull (row !! i).

(** The cells of a column. *)
Definition column_cells (tbl : table) (name : string) : list sqlval :=
  match position name (column_names (tbl_decl tbl)) with
  | Some i => map (fun row => cell row i) (tbl_rows tbl)
  | None => []
  end.

Definition primary_key_of (d : table_decl) : option string :=
  col_name <$> head (filter (fun c => col_primary_key c = true) (td_columns d)).

Definition operational (msg : string) : exn := mk_exn sqlite3_OperationalError msg.
Definition integrity (msg : string) : exn := mk_exn sqlite3_IntegrityError msg.

(** DROP TABLE IF EXISTS: the table, if any, goes with the indexes on it.
    With enforcement on, the rows are deleted first, which fails when a
    row of another table refers to the table. *)
Definition referenced_by (t : string) (child : table) : bool :=
  negb (bool_decide (td_name (tbl_decl child) = t))
  && existsb
       (fun fk : foreign_key =>
          let '(col, ref_table, _) := fk in
          bool_decide (ref_table = t)
          && existsb (fun v => negb (bool_decide (v = SNull))) (column_cells child col))
       (td_foreign_keys (tbl_decl child)).

Definition drop_from (t : string) (db : database) : database :=
  mk_db (delete t (db_tables db))
        (filter (fun entry => fst (snd entry) ≠ t) (db_indexes db)).

Definition drop_table (fk_on : bool) (t : string) (db : database)
  : outcome database :=
  if fk_on
     && bool_decide (is_Some (db_tables db !! t))
     && bool_decide (map_Exists (fun _ child => referenced_by t child = true)
                       (db_tables db))
  then Raise (integrity "FOREIGN KEY constraint failed")
  else Return (drop_from t db).

(** CREATE TABLE IF NOT EXISTS. *)
Definition valid_decl (d : table_decl) : bool :=
  negb (bool_decide (td_columns d = []))
  && bool_decide (NoDup (column_names d))
  && forallb (fun fk : foreign_key =>
                bool_decide (fk.1.1 ∈ column_names d))
       (td_foreign_keys d).

Definition create_table (d : table_decl) (db : database) : outcome database :=
  if negb (valid_decl d) then
    Raise (operational "malformed table declaration")
  else
    match db_tables db !! td_name d with
    | Some _ => Return db
    | None =>
        Return (mk_db (<[td_name d := mk_table d []]> (db_tables db))
                  (db_indexes db))
    end.

(** CREATE INDEX IF NOT EXISTS. *)
Definition create_index (i t col : string) (db : database) : outcome database :=
  match db_indexes db !! i with
  | Some _ => Return db
  | None =>
      match db_tables db !! t with
      | None => Raise (operational ("no such table: main." +:+ t))
      | Some tbl =>
          if bool_decide (col ∈ column_names (tbl_decl tbl))
          then Return (mk_db (db_tables db) (<[i := (t, col)]> (db_indexes db)))
          else Raise (operational ("no such column: " +:+ col))
      end
  end.

Fixpoint bind_params (params : list value) : outcome (list sqlval) :=
  match params with
  | [] => Return []
  | v :: rest =>
      b ← bind_param v; bs ← bind_params rest; Return (b :: bs)
  end.

(** The row to store: for each column of the table, the value bound to
    its name under the column's affinity, NULL for a column not named. *)
Definition new_row (d : table_decl) (cols : list string)
    (params : list value) (bound : list sqlval) : list sqlval :=
  map (fun c =>
         match position (col_name c) cols with
         | Some i =>
             apply_affinity (col_type c) (default VNone (params !! i))
               (default SNull (bound !! i))
         | None => SNull
         end)
    (td_columns d).

(** The next row id of an INTEGER PRIMARY KEY. *)
Definition next_rowid (keys : list sqlval) : Z :=
  1 + fold_right (fun v acc => match v with SInteger z => Z.max z acc | _ => acc end)
        0 keys.

(** The checks on the primary-key column; an INTEGER PRIMARY KEY is the
    row id, where NULL stands for the next one and only integers go. *)
Definition check_primary_key (tbl : table) (row : list sqlval)
  : outcome (list sqlval) :=
  match position true (map col_primary_key (td_columns (tbl_decl tbl))) with
  | None => Return row
  | Some i =>
      let keys := map (fun r => cell r i) (tbl_rows tbl) in
      let is_rowid :=
        bool_decide (col_type <$> td_columns (tbl_decl tbl) !! i = Some INTEGER) in
      key ←
        match cell row i with
        | SNull =>
            if is_rowid then Return (SInteger (next_rowid keys))
            else Raise (integrity "NOT NULL constraint failed")
        | SInteger z => Return (SInteger z)
        | k => if is_rowid then Raise (integrity "datatype mismatch") else Return k
        end;
      if existsb (sql_eq key) keys
      then Raise (integrity "UNIQUE constraint failed")
      else Return (<[i := key]> row)
  end.

(** The foreign-key checks of a row, against the tables after the row is
    in. *)
Definition check_foreign_keys (tables : gmap string table) (d : table_decl)
    (row : list sqlval) : outcome unit :=
  for_each (td_foreign_keys d)
    (fun _ (fk : foreign_key) =>
       let '(col, ref_table, ref_col) := fk in
       match tables !! ref_table with
       | None => Raise (operational ("no such table: main." +:+ ref_table))
       | Some parent =>
           if negb (bool_decide (primary_key_of (tbl_decl parent) = Some ref_col))
           then Raise (operational "foreign key mismatch")
           else
             let v := default SNull
                        (i ← position col (column_names d); row !! i) in
             if bool_decide (v = SNull)
                || existsb (sql_eq v) (column_cells parent ref_col)
             then Return tt
             else Raise (integrity "FOREIGN KEY constraint failed")
       end)
    tt.

(** INSERT INTO t (cols) VALUES (?, ...). *)
Definition insert_into (fk_on : bool) (t : string) (cols : list string)
    (params : list value) (db : database) : outcome database :=
  match db_tables db !! t with
  | None => Raise (operational ("no such table: " +:+ t))
  | Some tbl =>
      let d := tbl_decl tbl in
      if negb (forallb (fun c => bool_decide (c ∈ column_names d)) cols) then
        Raise (operational ("table " +:+ t +:+ " has no column of that name"))
      else if negb (length params =? length cols)%nat then
        Raise (mk_exn sqlite3_ProgrammingError
                 "Incorrect number of bindings supplied.")
      else
        bound ← bind_params params;
        row ← check_primary_key tbl (new_row d cols params bound);
        let tables :=
          <[t := mk_table d (tbl_rows tbl ++ [row])]> (db_tables db) in
        (if fk_on then check_foreign_keys tables d row else Return tt);;
        Return (mk_db tables (db_indexes db))
  end.

(** A schema statement: outside a transaction it is committed at once. *)
Definition run_ddl (f : database -> outcome database) (c : connection)
  : outcome unit * connection :=
  match f (cn_db c) with
  | Return db =>
      (Return tt,
       mk_conn db (if cn_in_transaction c then cn_committed c else db)
         (cn_in_transaction c) (cn_foreign_keys c))
  | Raise e => (Raise e, c)
  end.

(** [cursor.execute]: the pragma does nothing inside a transaction; a
    transaction is opened before an INSERT runs; a statement that fails
    leaves the tables as they were. *)
Definition sqlite_execute (st : statement) (params : list value)
    (c : connection) : outcome unit * connection :=
  match st with
  | Pragma_foreign_keys on =>
      (Return tt,
       if cn_in_transaction c then c
       else mk_conn (cn_db c) (cn_committed c) false on)
  | Drop_table_if_exists t => run_ddl (drop_table (cn_foreign_keys c) t) c
  | Create_table_if_not_exists d => run_ddl (create_table d) c
  | Create_index_if_not_exists i t col => run_ddl (create_index i t col) c
  | Insert_into t cols =>
      match insert_into (cn_foreign_keys c) t cols params (cn_db c) with
      | Return db =>
          (Return tt, mk_conn db (cn_committed c) true (cn_foreign_keys c))
      | Raise e =>
          (Raise e, mk_conn (cn_db c) (cn_committed c) true (cn_foreign_keys c))
      end
  end.

Definition sqlite_commit (c : connection) : outcome unit * connection :=
  (Return tt, mk_conn (cn_db c) (cn_db c) false (cn_foreign_keys c)).

Definition sqlite_rollback (c : connection) : connection :=
  mk_conn (cn_committed c) (cn_committed c) false (cn_foreign_keys c).

(** A connection outside a transaction. *)
Definition idle (c : connection) : Prop :=
  cn_in_transaction c = false /\ cn_committed c = cn_db c.

Definition empty_db : database := mk_db ∅ ∅.

(** A fresh connection on an empty database, as [connect] leaves it. *)
Definition fresh_connection : connection := mk_conn empty_db empty_db false true.

(** The rows of a table, as the connection sees them. *)
Definition rows_of (c : connection) (t : string) : option (list (list sqlval)) :=
  tbl_rows <$> db_tables (cn_db c) !! t.

End Sqlite.


(** ** Reasoning about methods *)

(** [wp m Q E c]: run on [c], the method [m] either returns a value and a
    connection in [Q] or raises an exception with a connection in [E]. *)
Definition wp {C A} (m : M C A) (Q : A -> C -> Prop) (E : exn -> C -> Prop)
    (c : C) : Prop :=
  match m c with
  | (Return a, c', _) => Q a c'
  | (Raise e, c', _) => E e c'
  end.

(** An exception that is none of pandas' read errors. *)
Definition not_read_error (e : exn) : Prop :=
  isinstance e EmptyDataError = false /\ isinstance e ParserError = false.


(** ** What a run on the SQLite connection keeps *)

Module Rerun.

Import Sqlite.

(** The statement is about table [t] (a pragma is about none). *)
Definition targets (t : string) (st : statement) : Prop :=
  match st with
  | Pragma_foreign_keys _ => True
  | Drop_table_if_exists t' => t' = t
  | Create_table_if_not_exists d => td_name d = t
  | Create_index_if_not_exists _ t' _ => t' = t
  | Insert_into t' _ => t' = t
  end.

(** Apart from table [t] and its indexes, the connection sees and has
    committed the database [d]. *)
Definition rest_is (d : database) (t : string) (c : connection) : Prop :=
  drop_from t (cn_db c) = d /\ drop_from t (cn_committed c) = d.

(** The connection sees table [t] with [n] rows. *)
Definition has_rows (t : string) (n : nat) (c : connection) : Prop :=
  exists rows, rows_of c t = Some rows /\ length rows = n.


End Rerun.


(** ** Sample sources *)

Module Scenario.

Import Sqlite.

(** The three-row source of the specification: the second price is no
    number, the third is missing. *)
Definition items : DataFrame :=
  mk_df 3
    [("id", mk_series dt_integer [VInt 1; VInt 2; VInt 3]);
     ("name", mk_series dt_object [VStr "A"; VStr "B"; VStr "C"]);
     ("price", mk_series dt_object [VStr "9.99"; VStr "bad"; VNaN])].

(** A source whose second row has no key. *)
Definition stock : DataFrame :=
  mk_df 3
    [("sku", mk_series dt_object [VStr "A-1"; VNaN; VStr "C-3"]);
     ("quantity", mk_series dt_integer [VInt 5; VInt 6; VInt 7])].

(** A source whose second key does not fit a 64-bit signed integer. *)
Definition ledger : DataFrame :=
  mk_df 2
    [("entry", mk_series dt_integer [VInt 1; VInt (2 ^ 63)]);
     ("memo", mk_series dt_object [VStr "rent"; VStr "fees"])].

Definition files : list (string * DataFrame) :=
  [("items.csv", items); ("stock.csv", stock); ("ledger.csv", ledger)].

Definition lookup_file (path : string) : option DataFrame :=
  snd <$> head (filter (fun f => f.1 = path) files).

Definition path_exists (path : string) : bool :=
  bool_decide (is_Some (lookup_file path)).

Definition read_csv (path : string) : outcome DataFrame :=
  match lookup_file path with
  | Some df => Return df
  | None => Raise (mk_exn FileNotFoundError "No such file or directory")
  end.

(** [ingest_csv] on the SQLite connection and these files. *)
Definition ingest (csv_path table_name : string) (primary_key : option string)
  : M connection nat :=
  ingest_csv sqlite_execute sqlite_commit sqlite_rollback path_exists read_csv
    csv_path table_name primary_key None None.

(** [main] on an empty database, with a summary that prints nothing. *)
Definition run_main : Z * option connection * list effect :=
  main (fun _ => Return (mk_conn empty_db empty_db false false))
    sqlite_execute sqlite_commit sqlite_rollback path_exists read_csv
    (fun _ => mret tt).

End Scenario.

(** ** Further notions for the statements *)

Section IndexLoop.

Context {C : Type}.
Variable db_execute : statement -> list value -> C -> outcome unit * C.

(** The index statements sent in order on a connection, each with the name
    of the index and what the connection answered, and the connection
    after. *)
Fixpoint index_attempts (table_name : string) (indexes : list string) (c : C)
  : list (string * outcome unit) * C :=
  match indexes with
  | [] => ([], c)
  | col :: rest =>
      let index_name := "idx_" +:+ table_name +:+ "_" +:+ col in
      let '(r, c') :=
        db_execute (Create_index_if_not_exists index_name table_name col) [] c in
      let '(attempts, c'') := index_attempts table_name rest c' in
      ((index_name, r) :: attempts, c'')
  end.

(** The line printed for each index that was refused. *)
Definition index_warnings (attempts : list (string * outcome unit))
  : list effect :=
  flat_map
    (fun a : string * outcome unit =>
       match a.2 with
       | Return _ => []
       | Raise e => [Print (Index_warning a.1 e)]
       end)
    attempts.

End IndexLoop.

Definition is_print (ef : effect) : bool :=
  match ef with Print _ => true | Set_stat _ _ => false end.

(** A method that only prints. *)
Definition quiet {C A} (m : M C A) : Prop :=
  forall c, Forall (fun ef => is_print ef = true) (m c).2.

Module Aftermath.

Import Sqlite.


(** A source of three rows whose second key does not fit a 64-bit signed
    integer. *)
Definition journal : DataFrame :=
  mk_df 3
    [("entry", mk_series dt_integer [VInt 1; VInt (2 ^ 63); VInt 3]);
     ("memo", mk_series dt_object [VStr "rent"; VStr "fees"; VStr "tax"])].


(** What binding a Python integer outside 64 bits raises. *)
Definition too_large : exn :=
  mk_exn OverflowError "Python int too large to convert to SQLite INTEGER".


(** A plan of three entries, the second without its file. *)
Definition plan : list config_entry :=
  [ mk_config "items.csv" "items" (Some "id") None None;
    mk_config "orders.csv" "orders" (Some "order_id") None None;
    mk_config "stock.csv" "stock" (Some "sku") None None ].

End Aftermath.

(** * Properties *)

(** ** Type inference *)

Section TypeInference.

Import Text Spec.

Lemma digit_not_space c : is_digit c = true -> is_space c = false.
Proof. destruct c as [[] [] [] [] [] [] [] []]; (discriminate || reflexivity). Qed.

Lemma digit_lower c : is_digit c = true -> lower c = c.
Proof. destruct c as [[] [] [] [] [] [] [] []]; (discriminate || reflexivity). Qed.

Lemma digit_scan_sign c s :
  is_digit c = true -> scan_sign (String c s) = (false, String c s).
Proof. destruct c as [[] [] [] [] [] [] [] []]; (discriminate || reflexivity). Qed.






Lemma to_numeric_raises v e :
  to_numeric v = Raise e -> exn_cls e = ValueError \/ exn_cls e = TypeError.
Proof.
  destruct v; simpl; try discriminate;
    try (intros [= <-]; simpl; by auto).
  repeat case_match; try discriminate. intros [= <-]; simpl; by auto.
Qed.

Lemma strptime_raises data fmt e :
  Datetime.strptime data fmt = Raise e -> exn_cls e = ValueError.
Proof.
  unfold Datetime.strptime. repeat case_match; try discriminate;
    by intros [= <-].
Qed.

Lemma isinstance_cls e c : exn_cls e = c -> isinstance e c = true.
Proof. intros <-. unfold isinstance. by destruct (exn_cls e). Qed.

(** What the object branch returns on a column with a first sample. *)
Lemma detect_object_sample vs v :
  first_sample vs = Some v ->
  detect_sqlite_type dt_object vs =
    Return (if parses_as_number v then "REAL" else "TEXT").
Proof.
  unfold first_sample, parses_as_number, detect_sqlite_type. simpl.
  destruct (dropna vs) as [|v' l]; [discriminate|]. intros [= ->]. simpl.
  destruct (to_numeric v) as [[]|e] eqn:Hn; simpl; [done|].
  assert (Hc : isinstance_any e [ValueError; TypeError; IndexError] = true).
  { unfold isinstance_any. simpl.
    destruct (to_numeric_raises _ _ Hn) as [H|H];
      rewrite (isinstance_cls _ _ H); simpl; [done | by rewrite orb_true_r]. }
  unfold isinstance_any in Hc. simpl in Hc. rewrite Hc.
  destruct (Datetime.strptime (py_str v) "%Y-%m-%d") as [[]|e1] eqn:H1;
    simpl; [done|].
  rewrite (isinstance_cls _ _ (strptime_raises _ _ _ H1)).
  destruct (Datetime.strptime (py_str v) "%Y-%m-%d %H:%M:%S") as [[]|e2] eqn:H2;
    simpl; [done|].
  by rewrite (isinstance_cls _ _ (strptime_raises _ _ _ H2)).
Qed.

(** What it returns on a column with no sample. *)
Lemma detect_object_no_sample vs :
  dropna vs = [] -> detect_sqlite_type dt_object vs = Return "REAL".
Proof. unfold detect_sqlite_type. simpl. by intros ->. Qed.

Lemma take_while_digit c s :
  is_digit c = true ->
  take_while is_digit (String c s) = String c (take_while is_digit s).
Proof. simpl. by intros ->. Qed.

Lemma skip_while_digit c s :
  is_digit c = true -> skip_while is_digit (String c s) = skip_while is_digit s.
Proof. simpl. by intros ->. Qed.

(** A text that starts with four digits and a dash is no number. *)
Lemma date_prefix_not_numeric a b c d rest :
  is_digit a = true -> is_digit b = true ->
  is_digit c = true -> is_digit d = true ->
  parses_as_number (VStr (String a (String b (String c (String d (String "-" rest))))))
  = false.
Proof.
  intros Ha Hb Hc Hd. unfold parses_as_number, to_numeric.
  set (s := String a _).
  assert (Hx : xstrtod s = None).
  { unfold xstrtod, s. simpl skip_while at 1. rewrite (digit_not_space _ Ha).
    rewrite (digit_scan_sign _ _ Ha).
    rewrite !take_while_digit, !skip_while_digit by done.
    simpl. done. }
  assert (Hi : is_inf_literal s = false).
  { unfold is_inf_literal, s. apply bool_decide_eq_false_2.
    simpl lowercase. rewrite (digit_lower _ Ha).
    rewrite !elem_of_cons, elem_of_nil.
    intros H; repeat destruct H as [H|H]; try done;
      injection H as -> _; discriminate Ha. }
  simpl is_empty. cbv iota. by rewrite Hx, Hi.
Qed.

Lemma match_format_date_prefix ds f data r :
  Datetime.match_format (Datetime.D_Y :: Datetime.D_lit "-" :: ds) f data = Some r ->
  exists a b c d rest,
    data = String a (String b (String c (String d (String "-" rest))))
    /\ is_digit a = true /\ is_digit b = true
    /\ is_digit c = true /\ is_digit d = true.
Proof.
  simpl. unfold Datetime.four_digits.
  destruct data as [|a [|b [|c [|d rest]]]]; simpl; try discriminate.
  destruct (is_digit a) eqn:Ha; simpl; [|discriminate].
  destruct (is_digit b) eqn:Hb; simpl; [|discriminate].
  destruct (is_digit c) eqn:Hc; simpl; [|discriminate].
  destruct (is_digit d) eqn:Hd; simpl; [|discriminate].
  destruct rest as [|x rest]; simpl; [discriminate|].
  case_bool_decide as Hx; simpl; [|discriminate]. subst x.
  intros _. by exists a, b, c, d, rest.
Qed.

Lemma strptime_date_prefix data fmt ds :
  Datetime.parse_format fmt = Datetime.D_Y :: Datetime.D_lit "-" :: ds ->
  Datetime.strptime data fmt = Return tt ->
  parses_as_number (VStr data) = false.
Proof.
  unfold Datetime.strptime. intros ->.
  destruct (Datetime.match_format _ _ data) as [r|] eqn:Hm; [|discriminate].
  intros _. apply match_format_date_prefix in Hm
    as (a & b & c & d & rest & -> & ? & ? & ? & ?).
  by apply date_prefix_not_numeric.
Qed.

(** The answer of [detect_sqlite_type], in closed form. *)
Lemma detect_sqlite_type_declared (series : Series) :
  detect_sqlite_type (s_dtype series) (s_values series)
  = Return (storage_name (declared_type series)).
Proof.
  destruct series as [dt vs]. unfold declared_type. simpl.
  destruct dt; try reflexivity. simpl.
  destruct (dropna vs) as [|v l] eqn:Hd.
  - rewrite bool_decide_eq_true_2 by done. by apply detect_object_no_sample.
  - assert (Hs : first_sample vs = Some v) by (unfold first_sample; by rewrite Hd).
    rewrite (detect_object_sample _ _ Hs).
    rewrite bool_decide_eq_false_2 by done.
    unfold infer_storage_type. simpl. rewrite Hs.
    destruct (parses_as_number v); [done|].
    by destruct (matches_date_format v).
Qed.

(** C1 (as stated, refuted): on an object column without any non-absent
    value the specification's decision order ends in the TEXT default,
    while [detect_sqlite_type] answers REAL. *)
Lemma detect_sqlite_type_spec_order_fails :
  infer_storage_type dt_object [VNaN; VNone] = TEXT
  /\ detect_sqlite_type dt_object [VNaN; VNone] = Return "REAL"
  /\ detect_sqlite_type dt_object [VNaN; VNone]
     <> Return (storage_name (infer_storage_type dt_object [VNaN; VNone])).
Proof. repeat split. discriminate. Qed.

(** C1 (amended): [detect_sqlite_type] never raises, returns one of
    INTEGER, REAL and TEXT, and its answer is that of the specification's
    first-match order (integral, float, boolean, datetime, then the first
    non-absent sample of an object column as a number or as a date, TEXT
    otherwise), except that an object column without any non-absent value
    gets REAL. *)
Theorem detect_sqlite_type_decision (dt : dtype) (vs : list value) :
  exists t : storage_type,
    detect_sqlite_type dt vs = Return (storage_name t)
    /\ t = (if is_object_dtype dt && bool_decide (dropna vs = [])
            then REAL else infer_storage_type dt vs).
Proof.
  eexists. split; [|reflexivity].
  apply (detect_sqlite_type_declared (mk_series dt vs)).
Qed.




(** C7: when the first non-absent sample of an object column is a text in
    the format YYYY-MM-DD or YYYY-MM-DD HH:MM:SS, it is no number, so it
    reaches the date probes, and the answer is TEXT; a sample that is no
    number and in neither format gets TEXT as well. *)
Theorem date_strings_are_text (vs : list value) (s : string) :
  first_sample vs = Some (VStr s) ->
  (Datetime.strptime s "%Y-%m-%d" = Return tt ->
     parses_as_number (VStr s) = false
     /\ detect_sqlite_type dt_object vs = Return "TEXT")
  /\ (Datetime.strptime s "%Y-%m-%d %H:%M:%S" = Return tt ->
     parses_as_number (VStr s) = false
     /\ detect_sqlite_type dt_object vs = Return "TEXT")
  /\ (parses_as_number (VStr s) = false ->
     detect_sqlite_type dt_object vs = Return "TEXT").
Proof.
  intros Hs.
  assert (Hlast : parses_as_number (VStr s) = false ->
                  detect_sqlite_type dt_object vs = Return "TEXT").
  { intros Hn. rewrite (detect_object_sample _ _ Hs). by rewrite Hn. }
  split; [|split]; [| |exact Hlast]; intros Hf.
  - assert (Hn := strptime_date_prefix s "%Y-%m-%d" _ eq_refl Hf). auto.
  - assert (Hn := strptime_date_prefix s "%Y-%m-%d %H:%M:%S" _ eq_refl Hf). auto.
Qed.

Lemma date_strings_are_text_witness :
  (first_sample [VNaN; VStr "2024-01-15"] = Some (VStr "2024-01-15")
   /\ Datetime.strptime "2024-01-15" "%Y-%m-%d" = Return tt
   /\ detect_sqlite_type dt_object [VNaN; VStr "2024-01-15"] = Return "TEXT")
  /\ (first_sample [VStr "2024-01-15 10:30:00"] = Some (VStr "2024-01-15 10:30:00")
      /\ Datetime.strptime "2024-01-15 10:30:00" "%Y-%m-%d %H:%M:%S" = Return tt
      /\ detect_sqlite_type dt_object [VStr "2024-01-15 10:30:00"] = Return "TEXT")
  /\ (first_sample [VStr "15/01/2024"] = Some (VStr "15/01/2024")
      /\ parses_as_number (VStr "15/01/2024") = false
      /\ detect_sqlite_type dt_object [VStr "15/01/2024"] = Return "TEXT").
Proof.
  split; [|split]; (split; [reflexivity|split; [reflexivity|]]).
  - exact (proj2 (proj1 (date_strings_are_text
             [VNaN; VStr "2024-01-15"] "2024-01-15" eq_refl) eq_refl)).
  - exact (proj2 (proj1 (proj2 (date_strings_are_text
             [VStr "2024-01-15 10:30:00"] "2024-01-15 10:30:00" eq_refl)) eq_refl)).
  - exact (proj2 (proj2 (date_strings_are_text
             [VStr "15/01/2024"] "15/01/2024" eq_refl)) eq_refl).
Defined.

(** C10: an object column without any non-absent value gets REAL: the
    literal "0" stands in for the missing sample and is a number. *)
Theorem detect_sqlite_type_empty_object_column (vs : list value) :
  dropna vs = [] -> detect_sqlite_type dt_object vs = Return "REAL".
Proof. apply detect_object_no_sample. Qed.

Lemma detect_sqlite_type_empty_object_column_witness :
  dropna [VNaN; VNone; VNaT] = []
  /\ detect_sqlite_type dt_object [VNaN; VNone; VNaT] = Return "REAL".
Proof.
  split; [reflexivity|].
  exact (detect_sqlite_type_empty_object_column [VNaN; VNone; VNaT] eq_refl).
Defined.

End TypeInference.

(** ** Schema generation *)

Section SchemaGeneration.

Import Text Spec.

Lemma str_app_cons c s t : String c s +:+ t = String c (s +:+ t).
Proof. reflexivity. Qed.

Lemma str_app_assoc s1 s2 s3 : (s1 +:+ s2) +:+ s3 = s1 +:+ s2 +:+ s3.
Proof.
  induction s1 as [|c s1 IH]; [done|]. by rewrite !str_app_cons, IH.
Qed.

Lemma str_app_empty_r s : s +:+ EmptyString = s.
Proof. induction s as [|c s IH]; [done|]. by rewrite str_app_cons, IH. Qed.

(** The column definition that the loop body builds. *)
Lemma column_definition col series pk :
  sql_column (mk_column col (declared_type series) (bool_decide (Some col = pk)))
  = (if bool_decide (Some col = pk)
     then (dquote +:+ col +:+ dquote +:+ " " +:+ storage_name (declared_type series))
          +:+ " PRIMARY KEY NOT NULL"
     else dquote +:+ col +:+ dquote +:+ " " +:+ storage_name (declared_type series)).
Proof.
  unfold sql_column, quoted. simpl.
  destruct (bool_decide (Some col = pk)).
  - by rewrite !str_app_assoc.
  - by rewrite !str_app_assoc, str_app_empty_r.
Qed.

(** The first loop appends one definition per column, in order. *)
Lemma columns_loop (cols : list (string * Series)) pk (acc : list string) :
  for_each cols
    (fun columns '(col, series) =>
       dtype ← detect_sqlite_type (s_dtype series) (s_values series);
       let col_def := dquote +:+ col +:+ dquote +:+ " " +:+ dtype in
       let col_def :=
         if bool_decide (Some col = pk)
         then col_def +:+ " PRIMARY KEY NOT NULL" else col_def in
       Return (columns ++ [col_def]))
    acc
  = Return (acc ++ map (fun '(col, series) =>
              sql_column (mk_column col (declared_type series)
                            (bool_decide (Some col = pk)))) cols).
Proof.
  revert acc. induction cols as [|[col series] cols IH]; intros acc; simpl.
  - by rewrite app_nil_r.
  - rewrite detect_sqlite_type_declared. simpl.
    rewrite IH, column_definition, <- List.app_assoc. done.
Qed.

(** The second loop appends one clause per foreign key, in order. *)
Lemma foreign_keys_loop (fks : list foreign_key) (sql : string) :
  fold_left
    (fun create_sql '(fk_col, ref_table, ref_col) =>
       create_sql +:+ "," +:+ newline +:+ "    FOREIGN KEY ("
       +:+ dquote +:+ fk_col +:+ dquote +:+ ") REFERENCES "
       +:+ ref_table +:+ "(" +:+ dquote +:+ ref_col +:+ dquote +:+ ")")
    fks sql
  = sql +:+ concat_strings
      (map (fun fk => "," +:+ newline +:+ "    " +:+ sql_foreign_key fk) fks).
Proof.
  revert sql. induction fks as [|[[c t] r] fks IH]; intros sql; simpl.
  - by rewrite str_app_empty_r.
  - rewrite IH. unfold sql_foreign_key, quoted.
    by rewrite !str_app_assoc.
Qed.

(** The text built is the text of the declaration. *)
Lemma create_table_schema_returns df table_name primary_key foreign_keys :
  create_table_schema df table_name primary_key foreign_keys
  = Return (sql_create_table
              (table_declaration df table_name primary_key foreign_keys)).
Proof.
  unfold create_table_schema. rewrite columns_loop. simpl.
    f_equal. unfold sql_create_table, table_declaration. simpl.
    rewrite !map_map.
    assert (Hfk : forall sql,
      match foreign_keys with
      | Some ((_ :: _) as fks) =>
          fold_left
            (fun create_sql '(fk_col, ref_table, ref_col) =>
               create_sql +:+ "," +:+ newline +:+ "    FOREIGN KEY ("
               +:+ dquote +:+ fk_col +:+ dquote +:+ ") REFERENCES "
               +:+ ref_table +:+ "(" +:+ dquote +:+ ref_col +:+ dquote +:+ ")")
            fks sql
      | _ => sql
      end
      = sql +:+ concat_strings
          (map (fun fk => "," +:+ newline +:+ "    " +:+ sql_foreign_key fk)
             (default [] foreign_keys))).
    { intros sql. destruct foreign_keys as [[|fk fks]|]; simpl;
        [by rewrite str_app_empty_r | | by rewrite str_app_empty_r].
      apply (foreign_keys_loop (fk :: fks)). }
    rewrite Hfk, !str_app_assoc. do 6 f_equal.
    apply map_ext. by intros [col series].
Qed.

(** The statement built for an order table with a key and a foreign key. *)
Example create_table_schema_orders :
  create_table_schema
    (mk_df 2 [("order_id", mk_series dt_integer [VInt 1; VInt 2]);
              ("customer_id", mk_series dt_integer [VInt 7; VInt 8]);
              ("order_date", mk_series dt_object [VStr "2024-01-15"; VNaN])])
    "Orders" (Some "order_id") (Some [("customer_id", "Customers", "customer_id")])
  = Return
      ("CREATE TABLE IF NOT EXISTS Orders (" +:+ newline
       +:+ "    " +:+ dquote +:+ "order_id" +:+ dquote
       +:+ " INTEGER PRIMARY KEY NOT NULL," +:+ newline
       +:+ "    " +:+ dquote +:+ "customer_id" +:+ dquote +:+ " INTEGER," +:+ newline
       +:+ "    " +:+ dquote +:+ "order_date" +:+ dquote +:+ " TEXT," +:+ newline
       +:+ "    FOREIGN KEY (" +:+ dquote +:+ "customer_id" +:+ dquote
       +:+ ") REFERENCES Customers(" +:+ dquote +:+ "customer_id" +:+ dquote +:+ ")"
       +:+ newline +:+ ");").
Proof. vm_compute. reflexivity. Qed.


End SchemaGeneration.

(** ** Loading: properties that hold on any connection *)

Section Loading.

Context {C : Type}.
Variable db_connect : string -> outcome C.
Variable db_execute : statement -> list value -> C -> outcome unit * C.
Variable db_commit : C -> outcome unit * C.
Variable db_rollback : C -> C.
Variable path_exists : string -> bool.
Variable read_csv : string -> outcome DataFrame.
Variable generate_summary : gmap string nat -> M C unit.

Abbreviation ingest_csv :=
  (ingest_csv db_execute db_commit db_rollback path_exists read_csv).
Abbreviation ingest_frame := (ingest_frame db_execute db_commit).
Abbreviation recreate_table := (recreate_table db_execute).
Abbreviation insert_rows := (insert_rows db_execute).
Abbreviation insert_row := (insert_row db_execute).
Abbreviation row_attempts := (row_attempts db_execute).
Abbreviation main_on :=
  (main_on db_connect db_execute db_commit db_rollback path_exists read_csv
     generate_summary).
Abbreviation main_body :=
  (main_body db_execute db_commit db_rollback path_exists read_csv
     generate_summary).

Lemma bind_run {A B} (m : M C A) (k : A -> M C B) (c : C) :
  (m ≫= k) c
  = match m c with
    | (Return a, c', out) =>
        let '(r, c'', out') := k a c' in (r, c'', out ++ out')
    | (Raise e, c', out) => (Raise e, c', out)
    end.
Proof. reflexivity. Qed.

Lemma try_catch_run {A} (body : M C A) (handler : exn -> M C A) (c : C) :
  try_catch body handler c
  = match body c with
    | (Return a, c', out) => (Return a, c', out)
    | (Raise e, c', out) =>
        let '(r, c'', out') := handler e c' in (r, c'', out ++ out')
    end.
Proof. reflexivity. Qed.

Lemma print_run ev (c : C) : print ev c = (Return tt, c, [Print ev]).
Proof. reflexivity. Qed.

Lemma lift_run {A} (o : outcome A) (c : C) : lift o c = (o, c, []).
Proof. reflexivity. Qed.

Lemma isinstance_Exception e : isinstance e Exception = true.
Proof. unfold isinstance. by destruct (exn_cls e). Qed.

(** The inner loop of a row is a map. *)
Lemma row_values_of_map row : row_values_of row = map null_normalize row.
Proof.
  unfold row_values_of.
  assert (H : forall acc,
    fold_left (fun row_values val =>
                 if isna val then row_values ++ [VNone] else row_values ++ [val])
      row acc = acc ++ map null_normalize row).
  { induction row as [|v row IH]; intros acc; simpl.
    - by rewrite app_nil_r.
    - unfold null_normalize at 1.
      destruct (isna v); rewrite IH, <- List.app_assoc; done. }
  apply (H []).
Qed.



(** The row loop when no row raises anything but a [sqlite3.Error]: it
    runs to the end, counts the rows that went in and prints two lines
    for each of the others. *)
Lemma row_loop st columns rows c n0 :
  (forall a e, a ∈ (row_attempts st rows c).1 ->
               at_result a = Raise e -> isinstance e sqlite3_Error = true) ->
  for_loop rows (insert_row st columns) n0 c
  = (Return (n0 + accepted (row_attempts st rows c).1)%nat,
     (row_attempts st rows c).2,
     row_warnings columns (row_attempts st rows c).1).
Proof.
  revert c n0. induction rows as [|[idx row] rows IH]; intros c n0 Hsql.
  - simpl. unfold accepted. simpl. by rewrite Nat.add_0_r.
  - simpl in *. unfold mbind, M_bind. unfold insert_row at 1.
    rewrite row_values_of_map. unfold try_catch, execute.
    destruct (db_execute st (map null_normalize row) c) as [[[]|e] c'] eqn:Hex;
      destruct (row_attempts st rows c') as [attempts c''] eqn:Hat; simpl in *.
    + rewrite IH; rewrite Hat; simpl.
      * do 3 f_equal. unfold accepted.
        rewrite filter_cons, decide_True by done. simpl. lia.
      * intros a e Ha. apply Hsql. by right.
    + assert (He : isinstance e sqlite3_Error = true).
      { apply (Hsql (mk_attempt idx (map null_normalize row) (Raise e)));
          [by left | done]. }
      rewrite He. simpl. rewrite IH; rewrite Hat; simpl.
      * done.
      * intros a e' Ha. apply Hsql. by right.
Qed.





Lemma prepare_columns_names df :
  map fst (df_columns (prepare_columns df)) = map fst (df_columns df).
Proof.
  unfold prepare_columns. simpl. rewrite map_map.
  apply map_ext. by intros [col series].
Qed.

Lemma prepare_columns_len df : df_len (prepare_columns df) = df_len df.
Proof. done. Qed.




(** C4: when the [try] block fails, at the read or after it, with
    anything but pandas' own [EmptyDataError] and [ParserError],
    [ingest_csv] rolls the connection back and raises [sqlite3.Error] for a
    [sqlite3.Error], [Exception] otherwise, with the message of the
    original exception; what the connection then shows is what was last
    committed. *)
Theorem ingest_csv_rolls_back {D : Type} (current committed : C -> D)
    (csv_path table_name : string) (primary_key : option string)
    (foreign_keys : option (list foreign_key)) (indexes : option (list string))
    (c c1 : C) (e : exn) (out : list effect) :
  (forall c, current (db_rollback c) = committed c) ->
  path_exists csv_path = true ->
  (df ← lift (read_csv csv_path);
   ingest_frame df table_name primary_key foreign_keys indexes) c
    = (Raise e, c1, out) ->
  isinstance e EmptyDataError = false ->
  isinstance e ParserError = false ->
  ingest_csv csv_path table_name primary_key foreign_keys indexes c
    = (Raise
         (if isinstance e sqlite3_Error
          then mk_exn sqlite3_Error
                 ("Database error while ingesting " +:+ csv_path
                  +:+ ": " +:+ exn_msg e)
          else mk_exn Exception
                 ("Unexpected error while ingesting " +:+ csv_path
                  +:+ ": " +:+ exn_msg e)),
       db_rollback c1,
       Print (Processing csv_path) :: out)
  /\ current (db_rollback c1) = committed c1.
Proof.
  intros Hrb Hpath Hbody He1 He2. split; [|apply Hrb].
  unfold ingest_csv. rewrite Hpath. cbn [negb].
  rewrite bind_run, print_run, try_catch_run, Hbody.
  rewrite He1, He2, isinstance_Exception.
  destruct (isinstance e sqlite3_Error); simpl; by rewrite ?app_nil_r.
Qed.

Lemma exit_status_raise {A} e : (exit_status (@Raise A e)).1 = 1.
Proof.
  unfold exit_status, main_except. rewrite isinstance_Exception.
  by repeat case_match.
Qed.

Lemma missing_source csv_path table_name primary_key foreign_keys indexes c :
  path_exists csv_path = false ->
  ingest_csv csv_path table_name primary_key foreign_keys indexes c
  = (Raise (mk_exn FileNotFoundError ("CSV file not found: " +:+ csv_path)),
     c, []).
Proof. intros H. unfold ingest_csv. by rewrite H. Qed.

(** The loop of [main] stops with an exception when the file of an entry
    of the plan is missing. *)
Lemma main_loop_missing_source config c :
  (exists entry, entry ∈ config /\ path_exists (cfg_csv entry) = false) ->
  exists e c' out,
    for_loop config
      (fun _ config =>
         ingest_csv (cfg_csv config) (cfg_table config)
           (cfg_primary_key config) (cfg_foreign_keys config)
           (cfg_indexes config);;
         mret tt)
      tt c = (Raise e, c', out).
Proof.
  revert c. induction config as [|entry0 config IH]; intros c (entry & Hin & Hp).
  - by apply elem_of_nil in Hin.
  - simpl. rewrite !bind_run.
    destruct (ingest_csv _ _ _ _ _ c) as [[[n|e] c'] out] eqn:Hrun; [|by eauto].
    apply elem_of_cons in Hin as [->|Hin].
    + rewrite (missing_source _ _ _ _ _ _ Hp) in Hrun. discriminate.
    + destruct (IH c') as (e & c'' & out' & Hloop); [by eauto|].
      simpl. rewrite Hloop. by eauto.
Qed.

(** C9: when the file of an entry does not exist, [ingest_csv] raises
    [FileNotFoundError] at once: the connection is the one it was given
    and nothing is printed or recorded; and a run of [main] on a plan with
    such an entry exits with status 1. *)
Theorem ingest_csv_missing_source
    (csv_path table_name : string) (primary_key : option string)
    (foreign_keys : option (list foreign_key)) (indexes : option (list string))
    (c : C) :
  path_exists csv_path = false ->
  ingest_csv csv_path table_name primary_key foreign_keys indexes c
  = (Raise (mk_exn FileNotFoundError ("CSV file not found: " +:+ csv_path)),
     c, [])
  /\ forall config entry,
       entry ∈ config -> cfg_csv entry = csv_path ->
       (main_on config).1.1 = 1.
Proof.
  intros Hp. split; [by apply missing_source|].
  intros config entry Hin Hcsv. unfold main_on.
  destruct (connect _ _ _) as [[[c0|e] conn] out].
  - unfold main_body.
    destruct (main_loop_missing_source config c0) as (e & c' & out' & Hloop).
    { exists entry. by rewrite Hcsv. }
    rewrite Hloop.
    destruct (exit_status (Raise e)) as [status out2] eqn:Hs. simpl.
    change status with ((status, out2).1). rewrite <- Hs.
    apply exit_status_raise.
  - destruct (exit_status (Raise e)) as [status out2] eqn:Hs. simpl.
    change status with ((status, out2).1). rewrite <- Hs.
    apply exit_status_raise.
Qed.

End Loading.

(** ** Rules for [wp] *)

Section MethodRules.

Context {C : Type}.
Implicit Types (c : C) (e : exn).

Lemma wp_ret {A} (a : A) (Q : A -> C -> Prop) E c :
  Q a c -> wp (mret a) Q E c.
Proof. done. Qed.

Lemma wp_raise {A} e (Q : A -> C -> Prop) (E : exn -> C -> Prop) c :
  E e c -> wp (raise e) Q E c.
Proof. done. Qed.

Lemma wp_print ev (Q : unit -> C -> Prop) E c :
  Q tt c -> wp (print ev) Q E c.
Proof. done. Qed.

Lemma wp_set_stat t n (Q : unit -> C -> Prop) E c :
  Q tt c -> wp (set_stat t n) Q E c.
Proof. done. Qed.

Lemma wp_lift {A} (o : outcome A) (Q : A -> C -> Prop) (E : exn -> C -> Prop) c :
  match o with Return a => Q a c | Raise e => E e c end -> wp (lift o) Q E c.
Proof. unfold wp, lift. by destruct o. Qed.

Lemma wp_bind {A B} (m : M C A) (k : A -> M C B) (Q : B -> C -> Prop) E c :
  wp m (fun a c' => wp (k a) Q E c') E c -> wp (m ≫= k) Q E c.
Proof.
  unfold wp, mbind, M_bind.
  destruct (m c) as [[[a|e] c'] out]; [|done].
  by destruct (k a c') as [[[b|e] c''] out'].
Qed.

Lemma wp_try_catch {A} (body : M C A) handler (Q : A -> C -> Prop) E c :
  wp body Q (fun e c' => wp (handler e) Q E c') c ->
  wp (try_catch body handler) Q E c.
Proof.
  unfold wp, try_catch.
  destruct (body c) as [[[a|e] c'] out]; [done|].
  by destruct (handler e c') as [[[b|e'] c''] out'].
Qed.

Lemma wp_mono {A} (m : M C A) (Q Q' : A -> C -> Prop) (E E' : exn -> C -> Prop) c :
  wp m Q E c ->
  (forall a c', Q a c' -> Q' a c') ->
  (forall e c', E e c' -> E' e c') ->
  wp m Q' E' c.
Proof.
  unfold wp. destruct (m c) as [[[a|e] c'] out]; auto.
Qed.

(** A loop keeps an invariant of the accumulator and the connection. *)
Lemma wp_for_loop {A S} (items : list A) (body : S -> A -> M C S)
    (I : S -> C -> Prop) E acc c :
  (forall acc x c, x ∈ items -> I acc c -> wp (body acc x) I E c) ->
  I acc c ->
  wp (for_loop items body acc) I E c.
Proof.
  revert acc c. induction items as [|x items IH]; intros acc c Hbody HI.
  - done.
  - simpl. apply wp_bind.
    eapply wp_mono; [apply Hbody; [by left|done]| |done].
    intros acc' c' HI'. apply IH; [|done].
    intros ??? Hin. apply Hbody. by right.
Qed.

End MethodRules.

(** ** Loading into SQLite *)

Section SqliteLoading.

Import Sqlite Rerun.

Variable path_exists : string -> bool.
Variable read_csv : string -> outcome DataFrame.

Abbreviation sqlite_ingest_csv :=
  (ingest_csv sqlite_execute sqlite_commit sqlite_rollback path_exists read_csv).

Lemma drop_from_idem t db : drop_from t (drop_from t db) = drop_from t db.
Proof.
  unfold drop_from. simpl. f_equal.
  - apply delete_delete_eq.
  - apply map_filter_id. intros i x. rewrite map_lookup_filter_Some. tauto.
Qed.

Lemma drop_from_lookup t db : db_tables (drop_from t db) !! t = None.
Proof. apply lookup_delete_eq. Qed.

(** *** The exceptions of the connection *)

Lemma not_read_error_cls e :
  exn_cls e ∈ [OverflowError; sqlite3_InterfaceError; sqlite3_IntegrityError;
               sqlite3_OperationalError; sqlite3_ProgrammingError] ->
  not_read_error e.
Proof.
  unfold not_read_error, isinstance. rewrite !elem_of_cons, elem_of_nil.
  intros H. repeat destruct H as [H|H]; try done; by rewrite H.
Qed.

Lemma bind_param_raises v e : bind_param v = Raise e -> not_read_error e.
Proof.
  destruct v; simpl; repeat case_match; try discriminate;
    intros [= <-]; by vm_compute.
Qed.

Lemma bind_params_raises params e :
  bind_params params = Raise e -> not_read_error e.
Proof.
  induction params as [|v params IH]; simpl; [discriminate|].
  destruct (bind_param v) eqn:Hv; simpl.
  - destruct (bind_params params); simpl; [discriminate|].
    intros [= <-]. by apply IH.
  - intros [= <-]. by eapply bind_param_raises.
Qed.

Lemma check_primary_key_raises tbl row e :
  check_primary_key tbl row = Raise e -> not_read_error e.
Proof.
  unfold check_primary_key. repeat case_match; simpl;
    repeat case_match; try discriminate; intros [= <-]; by vm_compute.
Qed.

Lemma check_foreign_keys_raises tables d row e :
  check_foreign_keys tables d row = Raise e -> not_read_error e.
Proof.
  unfold check_foreign_keys. generalize tt.
  induction (td_foreign_keys d) as [|[[col rt] rc] fks IH]; intros u; simpl;
    [discriminate|].
  repeat case_match; simpl; try (intros [= <-]; by vm_compute).
  apply IH.
Qed.

Lemma insert_into_raises fk t cols params db e :
  insert_into fk t cols params db = Raise e -> not_read_error e.
Proof.
  unfold insert_into.
  destruct (db_tables db !! t) as [tbl|]; [|intros [= <-]; by vm_compute].
  destruct (negb (forallb _ cols)); [intros [= <-]; by vm_compute|].
  destruct (negb (_ =? _)%nat); [intros [= <-]; by vm_compute|].
  destruct (bind_params params) eqn:Hb; simpl;
    [|intros [= <-]; by eapply bind_params_raises].
  destruct (check_primary_key _ _) eqn:Hpk; simpl;
    [|intros [= <-]; by eapply check_primary_key_raises].
  destruct fk; simpl; [|discriminate].
  destruct (check_foreign_keys _ _ _) eqn:Hfk; simpl; [discriminate|].
  intros [= <-]. by eapply check_foreign_keys_raises.
Qed.

Lemma drop_table_raises fk t db e :
  drop_table fk t db = Raise e -> not_read_error e.
Proof. unfold drop_table. case_match; [|discriminate]. intros [= <-]. by vm_compute. Qed.

Lemma create_table_raises d db e :
  create_table d db = Raise e -> not_read_error e.
Proof.
  unfold create_table. repeat case_match; try discriminate.
  intros [= <-]. by vm_compute.
Qed.

Lemma create_index_raises i t col db e :
  create_index i t col db = Raise e -> not_read_error e.
Proof.
  unfold create_index. repeat case_match; try discriminate;
    intros [= <-]; by vm_compute.
Qed.

(** *** What a statement on table [t] leaves alone *)

Lemma drop_from_insert t x db :
  drop_from t (mk_db (<[t := x]> (db_tables db)) (db_indexes db)) = drop_from t db.
Proof. unfold drop_from. simpl. by rewrite delete_insert_eq. Qed.

Lemma drop_from_index t i col db :
  db_indexes db !! i = None ->
  drop_from t (mk_db (db_tables db) (<[i := (t, col)]> (db_indexes db)))
  = drop_from t db.
Proof.
  intros Hi. unfold drop_from. simpl. f_equal.
  apply map_filter_insert_not'; [simpl; tauto|].
  intros y. by rewrite Hi.
Qed.

Lemma insert_into_returns fk t cols params db db' :
  insert_into fk t cols params db = Return db' ->
  exists tbl row,
    db_tables db !! t = Some tbl
    /\ db' = mk_db (<[t := mk_table (tbl_decl tbl) (tbl_rows tbl ++ [row])]>
                     (db_tables db)) (db_indexes db).
Proof.
  unfold insert_into.
  destruct (db_tables db !! t) as [tbl|]; [|discriminate].
  destruct (negb (forallb _ cols)); [discriminate|].
  destruct (negb (_ =? _)%nat); [discriminate|].
  destruct (bind_params params); simpl; [|discriminate].
  destruct (check_primary_key _ _) as [row|]; simpl; [|discriminate].
  destruct (if fk then _ else _); simpl; [|discriminate].
  intros [= <-]. by exists tbl, row.
Qed.

Lemma create_table_returns d db db' :
  create_table d db = Return db' ->
  (is_Some (db_tables db !! td_name d) /\ db' = db)
  \/ (db_tables db !! td_name d = None
      /\ db' = mk_db (<[td_name d := mk_table d []]> (db_tables db))
                 (db_indexes db)).
Proof.
  unfold create_table. destruct (negb (valid_decl d)); [discriminate|].
  destruct (db_tables db !! td_name d) eqn:Ht; intros [= <-]; eauto.
Qed.

Lemma create_index_returns i t col db db' :
  create_index i t col db = Return db' ->
  db' = db
  \/ (db_indexes db !! i = None
      /\ db' = mk_db (db_tables db) (<[i := (t, col)]> (db_indexes db))).
Proof.
  unfold create_index. destruct (db_indexes db !! i) eqn:Hi; [intros [= <-]; eauto|].
  repeat case_match; try discriminate. intros [= <-]. eauto.
Qed.

Lemma run_ddl_keeps d t f c r c' :
  (forall db', f (cn_db c) = Return db' -> drop_from t db' = drop_from t (cn_db c)) ->
  (forall e, f (cn_db c) = Raise e -> not_read_error e) ->
  rest_is d t c ->
  run_ddl f c = (r, c') ->
  rest_is d t c' /\ (forall e, r = Raise e -> not_read_error e).
Proof.
  intros Hret Hraise [Hdb Hcm]. unfold run_ddl.
  destruct (f (cn_db c)) as [db'|e] eqn:Hf; intros [= <- <-].
  - split; [|discriminate]. unfold rest_is. simpl.
    destruct (cn_in_transaction c); by rewrite (Hret _ eq_refl).
  - split; [done|]. intros e' [= <-]. by apply Hraise.
Qed.

(** A statement on table [t] leaves the rest of the database as it is,
    and raises none of pandas' read errors. *)
Lemma sqlite_execute_keeps d t st params c r c' :
  sqlite_execute st params c = (r, c') ->
  targets t st ->
  rest_is d t c ->
  rest_is d t c' /\ (forall e, r = Raise e -> not_read_error e).
Proof.
  intros Hex Ht Hrest. revert Hex. destruct st as [on|t'|decl|i t' col|t' cols]; simpl in *.
  - intros [= <- <-]. split; [|discriminate].
    destruct Hrest. by destruct (cn_in_transaction c).
  - subst t'. apply run_ddl_keeps; [| |done].
    + unfold drop_table. intros db'. case_match; [discriminate|].
      intros [= <-]. apply drop_from_idem.
    + intros e. apply drop_table_raises.
  - apply run_ddl_keeps; [| |done].
    + intros db' [[_ ->]|[_ ->]]%create_table_returns; [done|].
      rewrite Ht. apply drop_from_insert.
    + intros e. apply create_table_raises.
  - subst t'. apply run_ddl_keeps; [| |done].
    + intros db' [->|[Hi ->]]%create_index_returns; [done|].
      by apply drop_from_index.
    + intros e. apply create_index_raises.
  - subst t'. destruct Hrest as [Hdb Hcm].
    destruct (insert_into _ t cols params (cn_db c)) as [db'|e] eqn:Hins;
      intros [= <- <-].
    + split; [|discriminate].
      apply insert_into_returns in Hins as (tbl & row & _ & ->).
      split; simpl; [|done]. by rewrite drop_from_insert.
    + split; [done|]. intros e' [= <-]. by eapply insert_into_raises.
Qed.

Lemma sqlite_commit_keeps d t c :
  rest_is d t c -> rest_is d t (sqlite_commit c).2 /\ idle (sqlite_commit c).2.
Proof. intros [Hdb Hcm]. by repeat split. Qed.

Lemma sqlite_rollback_keeps d t c :
  rest_is d t c -> rest_is d t (sqlite_rollback c) /\ idle (sqlite_rollback c).
Proof. intros [Hdb Hcm]. by repeat split. Qed.

(** *** The rows of table [t] *)

Lemma create_table_has_rows d c c' :
  db_tables (cn_db c) !! td_name d = None ->
  sqlite_execute (Create_table_if_not_exists d) [] c = (Return tt, c') ->
  has_rows (td_name d) 0 c'.
Proof.
  intros Hno. simpl. unfold run_ddl.
  destruct (create_table d (cn_db c)) as [db'|e] eqn:Hc; intros [= <-].
  apply create_table_returns in Hc as [[[? Hs] _]|[_ ->]]; [congruence|].
  exists []. unfold rows_of. simpl. by rewrite lookup_insert_eq.
Qed.

Lemma create_index_has_rows i t col n params c r c' :
  has_rows t n c ->
  sqlite_execute (Create_index_if_not_exists i t col) params c = (r, c') ->
  has_rows t n c'.
Proof.
  intros Hn. simpl. unfold run_ddl.
  destruct (create_index i t col (cn_db c)) as [db'|e] eqn:Hc;
    intros [= <- <-]; [|done].
  by apply create_index_returns in Hc as [->|[_ ->]].
Qed.

Lemma insert_has_rows t cols n params c r c' :
  has_rows t n c ->
  sqlite_execute (Insert_into t cols) params c = (r, c') ->
  has_rows t (match r with Return _ => n + 1 | Raise _ => n end) c'.
Proof.
  intros (rows & Hrows & Hlen). simpl.
  destruct (insert_into _ t cols params (cn_db c)) as [db'|e] eqn:Hins;
    intros [= <- <-].
  - apply insert_into_returns in Hins as (tbl & row & Htbl & ->).
    exists (tbl_rows tbl ++ [row]). unfold rows_of in *. simpl.
    rewrite lookup_insert_eq. split; [done|].
    rewrite Htbl in Hrows. injection Hrows as <-.
    rewrite length_app. simpl. lia.
  - by exists rows.
Qed.

(** *** The run of [ingest_csv] *)

Lemma wp_execute st params (Q : unit -> connection -> Prop) E c :
  (forall r c', sqlite_execute st params c = (r, c') ->
                match r with Return _ => Q tt c' | Raise e => E e c' end) ->
  wp (execute sqlite_execute st params) Q E c.
Proof.
  intros H. unfold wp, execute.
  destruct (sqlite_execute st params c) as [[[]|e] c'] eqn:Hex;
    by apply (H _ _ eq_refl).
Qed.

Lemma create_indexes_wp d t n indexes c :
  rest_is d t c -> has_rows t n c ->
  wp (create_indexes sqlite_execute t indexes)
    (fun _ c' => rest_is d t c' /\ has_rows t n c')
    (fun e c' => not_read_error e /\ rest_is d t c') c.
Proof.
  intros Hrest Hrows. unfold create_indexes.
  apply (wp_for_loop _ _ (fun _ c' => rest_is d t c' /\ has_rows t n c'));
    [|done].
  clear c Hrest Hrows. intros [] col c _ [Hrest Hrows].
  apply wp_try_catch, wp_execute. intros r c' Hex.
  destruct (sqlite_execute_keeps d t _ _ _ _ _ Hex eq_refl Hrest) as [Hrest' Hr].
  assert (Hrows' := create_index_has_rows _ _ _ _ _ _ _ _ Hrows Hex).
  destruct r as [[]|e]; [done|].
  destruct (isinstance e sqlite3_Error).
  - by apply wp_print.
  - apply wp_raise. split; [by apply Hr | done].
Qed.

Lemma insert_rows_wp d t df c :
  rest_is d t c -> has_rows t 0 c ->
  wp (insert_rows sqlite_execute df t)
    (fun n c' => rest_is d t c' /\ has_rows t n c')
    (fun e c' => not_read_error e /\ rest_is d t c') c.
Proof.
  intros Hrest Hrows. unfold insert_rows.
  apply (wp_for_loop _ _ (fun n c' => rest_is d t c' /\ has_rows t n c'));
    [|done].
  clear c Hrest Hrows. intros n [idx row] c _ [Hrest Hrows]. unfold insert_row.
  apply wp_try_catch, wp_bind, wp_execute. intros r c' Hex.
  destruct (sqlite_execute_keeps d t _ _ _ _ _ Hex eq_refl Hrest) as [Hrest' Hr].
  assert (Hrows' := insert_has_rows _ _ _ _ _ _ _ Hrows Hex).
  destruct r as [[]|e]; [by apply wp_ret|].
  destruct (isinstance e sqlite3_Error).
  - apply wp_bind, wp_print, wp_bind, wp_print. by apply wp_ret.
  - apply wp_raise. split; [by apply Hr | done].
Qed.

Lemma ingest_frame_wp df t pk fks indexes c :
  idle c ->
  wp (ingest_frame sqlite_execute sqlite_commit df t pk fks indexes)
    (fun n c' => idle c' /\ rest_is (drop_from t (cn_db c)) t c' /\ has_rows t n c')
    (fun e c' => not_read_error e /\ rest_is (drop_from t (cn_db c)) t c') c.
Proof.
  intros [Hin Hcm]. set (d := drop_from t (cn_db c)).
  assert (Hrest : rest_is d t c) by (split; [done | by rewrite Hcm]).
  unfold ingest_frame. apply wp_bind, wp_print, wp_bind.
  unfold recreate_table at 1.
  apply wp_bind, wp_lift. rewrite create_table_schema_returns.
  (* PRAGMA foreign_keys = OFF *)
  apply wp_bind, wp_execute. intros r1 c1 H1.
  destruct (sqlite_execute_keeps d t _ _ _ _ _ H1 I Hrest) as [Hrest1 Hr1].
  destruct r1 as [[]|e]; [|by split; [apply Hr1|]].
  (* DROP TABLE *)
  apply wp_bind, wp_execute. intros r2 c2 H2.
  destruct (sqlite_execute_keeps d t _ _ _ _ _ H2 eq_refl Hrest1) as [Hrest2 Hr2].
  destruct r2 as [[]|e]; [|by split; [apply Hr2|]].
  assert (Hno : db_tables (cn_db c2) !! t = None).
  { simpl in H2. unfold run_ddl, drop_table in H2.
    destruct (_ && _) in H2; [discriminate|].
    injection H2 as <-. apply drop_from_lookup. }
  (* PRAGMA foreign_keys = ON *)
  apply wp_bind, wp_execute. intros r3 c3 H3.
  destruct (sqlite_execute_keeps d t _ _ _ _ _ H3 I Hrest2) as [Hrest3 Hr3].
  destruct r3 as [[]|e]; [|by split; [apply Hr3|]].
  assert (Hno3 : db_tables (cn_db c3) !! t = None).
  { simpl in H3. injection H3 as <-. by destruct (cn_in_transaction c2). }
  (* CREATE TABLE *)
  apply wp_bind, wp_execute. intros r4 c4 H4.
  destruct (sqlite_execute_keeps d t _ _ _ _ _ H4 eq_refl Hrest3) as [Hrest4 Hr4].
  destruct r4 as [[]|e]; [|by split; [apply Hr4|]].
  assert (Hrows4 : has_rows t 0 c4).
  { by apply (create_table_has_rows
                (table_declaration (strip_columns df) t pk fks) c3). }
  apply wp_bind, wp_print.
  (* the indexes *)
  eapply wp_mono with
    (Q := fun _ c' => rest_is d t c' /\ has_rows t 0 c')
    (E := fun e c' => not_read_error e /\ rest_is d t c').
  { destruct indexes as [[|ix indexes]|]; try by apply wp_ret.
    apply wp_bind, wp_print. by apply create_indexes_wp. }
  2: done.
  intros [] c5 [Hrest5 Hrows5].
  (* the rows *)
  apply wp_bind. eapply wp_mono; [by apply (insert_rows_wp d t)| |done].
  intros n c6 [Hrest6 Hrows6]. simpl.
  (* commit *)
  apply wp_bind. unfold wp at 1. unfold commit. simpl.
  apply wp_bind, wp_print, wp_bind, wp_set_stat, wp_ret.
  destruct Hrest6. destruct Hrows6 as (rows & ? & ?).
  repeat split; try done. by exists rows.
Qed.

Lemma idle_rollback c : idle c -> sqlite_rollback c = c.
Proof. destruct c as [db cm tx fk]. intros [H1 H2]. simpl in *. by subst. Qed.

(** After a run that read the file, the connection is outside a
    transaction, and only table [t] and its indexes have changed. *)
Lemma ingest_csv_wp csv_path t pk fks indexes df c :
  path_exists csv_path = true ->
  read_csv csv_path = Return df ->
  idle c ->
  wp (sqlite_ingest_csv csv_path t pk fks indexes)
    (fun n c' => idle c' /\ rest_is (drop_from t (cn_db c)) t c' /\ has_rows t n c')
    (fun e c' => idle c' /\ rest_is (drop_from t (cn_db c)) t c') c.
Proof.
  intros Hp Hr Hidle. unfold ingest_csv. rewrite Hp. cbn [negb].
  apply wp_bind, wp_print, wp_try_catch, wp_bind, wp_lift. rewrite Hr.
  eapply wp_mono; [by apply ingest_frame_wp|done|].
  intros e c' [[He1 He2] Hrest]. simpl. rewrite He1, He2.
  destruct (sqlite_rollback_keeps _ _ _ Hrest).
  destruct (isinstance e sqlite3_Error).
  - apply wp_bind. unfold wp at 1, rollback. by apply wp_raise.
  - rewrite isinstance_Exception.
    apply wp_bind. unfold wp at 1, rollback. by apply wp_raise.
Qed.






(** A run that cannot read the file raises and leaves the connection as
    it is. *)
Lemma ingest_csv_read_error csv_path t pk fks indexes e c :
  path_exists csv_path = true ->
  read_csv csv_path = Raise e ->
  idle c ->
  exists e' out,
    sqlite_ingest_csv csv_path t pk fks indexes c = (Raise e', c, out).
Proof.
  intros Hp Hr Hidle. unfold ingest_csv. rewrite Hp. cbn [negb].
  rewrite bind_run, print_run, try_catch_run, bind_run, lift_run, Hr.
  cbv beta iota.
  destruct (isinstance e EmptyDataError); [by eexists _, _|].
  destruct (isinstance e ParserError); [by eexists _, _|].
  destruct (isinstance e sqlite3_Error);
    [|destruct (isinstance e Exception)];
    unfold raise, mbind, M_bind, rollback; simpl;
    rewrite ?idle_rollback by done; by eexists _, _.
Qed.


End SqliteLoading.

(** ** The rows sent, and the sample sources *)

Section Scenarios.

Import Sqlite Rerun Scenario.





Lemma ingest_csv_rolls_back_witness :
  path_exists "ledger.csv" = true
  /\ read_csv "ledger.csv" = Return ledger
  /\ (ingest "ledger.csv" "ledger" (Some "entry") fresh_connection).1.1
     = Raise (mk_exn Exception
                ("Unexpected error while ingesting ledger.csv: "
                 +:+ "Python int too large to convert to SQLite INTEGER"))
  /\ rows_of (ingest "ledger.csv" "ledger" (Some "entry") fresh_connection).1.2
       "ledger" = Some [].
Proof.
  repeat (split; [reflexivity|]).
  set (body := (df ← lift (read_csv "ledger.csv");
                ingest_frame sqlite_execute sqlite_commit df "ledger"
                  (Some "entry") None None) fresh_connection).
  set (e := mk_exn OverflowError
              "Python int too large to convert to SQLite INTEGER").
  assert (Hbody : body = (Raise e, body.1.2, body.2))
    by (vm_compute; reflexivity).
  destruct (ingest_csv_rolls_back sqlite_execute sqlite_commit sqlite_rollback
              path_exists read_csv cn_db cn_committed "ledger.csv" "ledger"
              (Some "entry") None None fresh_connection
              body.1.2 e body.2
              (fun c => eq_refl) eq_refl Hbody eq_refl eq_refl)
    as [Hrun _].
  unfold ingest. rewrite Hrun. vm_compute. split; reflexivity.
Defined.


Lemma ingest_csv_missing_source_witness :
  path_exists "Products.csv" = false
  /\ ingest "Products.csv" "Products" (Some "product_id") fresh_connection
     = (Raise (mk_exn FileNotFoundError "CSV file not found: Products.csv"),
        fresh_connection, [])
  /\ run_main.1.1 = 1.
Proof.
  split; [reflexivity|].
  destruct (ingest_csv_missing_source
              (fun _ => Return (mk_conn empty_db empty_db false false))
              sqlite_execute sqlite_commit sqlite_rollback path_exists read_csv
              (fun _ => mret tt)
              "Products.csv" "Products" (Some "product_id") None None
              fresh_connection eq_refl) as [Hrun Hmain].
  split; [exact Hrun|].
  apply (Hmain ingestion_config
           (mk_config "Products.csv" "Products" (Some "product_id") None
              (Some ["category"; "brand"; "price"]))); [|reflexivity].
  unfold ingestion_config. by left.
Defined.

End Scenarios.

(** ** Further properties of the type inference and of the schema *)

Section MoreSchema.

Import Text Spec.

(** X1: the type of a column depends on its values through the first
    non-absent one only: two columns of the same dtype that agree on it get
    the same type, whatever their other values. *)
Theorem first_sample_decides (dt : dtype) (vs vs' : list value) :
  first_sample vs = first_sample vs' ->
  detect_sqlite_type dt vs = detect_sqlite_type dt vs'.
Proof.
  intros Hs. destruct dt; try reflexivity.
  destruct (first_sample vs) as [v|] eqn:Hv.
  - rewrite (detect_object_sample vs v Hv).
    by rewrite (detect_object_sample vs' v).
  - assert (Hd : forall l, first_sample l = None -> dropna l = []).
    { unfold first_sample. intros l. by destruct (dropna l). }
    rewrite (detect_object_no_sample vs) by auto.
    by rewrite (detect_object_no_sample vs') by auto.
Qed.

Lemma first_sample_decides_witness :
  first_sample [VNaN; VStr "12"; VStr "twelve"] = first_sample [VStr "12"]
  /\ detect_sqlite_type dt_object [VNaN; VStr "12"; VStr "twelve"]
     = detect_sqlite_type dt_object [VStr "12"]
  /\ detect_sqlite_type dt_object [VStr "12"] = Return "REAL".
Proof.
  split; [reflexivity|]. split; [|reflexivity].
  exact (first_sample_decides dt_object
           [VNaN; VStr "12"; VStr "twelve"] [VStr "12"] eq_refl).
Defined.

(** X2: the answer is INTEGER exactly for an integral or a boolean dtype;
    an object column never gets INTEGER, whatever it holds. *)
Theorem integer_exactly_by_dtype (dt : dtype) (vs : list value) :
  detect_sqlite_type dt vs = Return "INTEGER"
  <-> is_integer_dtype dt || is_bool_dtype dt = true.
Proof.
  assert (H := detect_sqlite_type_declared (mk_series dt vs)).
  simpl in H. rewrite H. clear H.
  unfold declared_type. simpl.
  destruct dt; simpl; try (split; [discriminate || done | discriminate || done]).
  case_bool_decide; [split; discriminate|].
  unfold infer_storage_type. simpl.
  destruct (first_sample vs) as [v|]; [|split; discriminate].
  destruct (parses_as_number v); [split; discriminate|].
  destruct (matches_date_format v); split; discriminate.
Qed.

Lemma filter_eq_NoDup (k : string) (l : list string) :
  NoDup l ->
  filter (fun n => Some n = Some k) l = if bool_decide (k ∈ l) then [k] else [].
Proof.
  induction 1 as [|n l Hn Hl IH]; [done|].
  rewrite filter_cons, IH. destruct (decide (Some n = Some k)) as [[= ->]|Hne].
  - rewrite (bool_decide_eq_true_2 (k ∈ k :: l)) by (by left).
    by rewrite (bool_decide_eq_false_2 (k ∈ l)).
  - destruct (decide (k ∈ l)) as [Hk|Hk].
    + rewrite (bool_decide_eq_true_2 (k ∈ l)) by done.
      rewrite (bool_decide_eq_true_2 (k ∈ n :: l)); [done | by right].
    + rewrite (bool_decide_eq_false_2 (k ∈ l)) by done.
      rewrite (bool_decide_eq_false_2 (k ∈ n :: l)); [done|].
      intros [->|?]%elem_of_cons; [congruence | done].
Qed.

(** X3: in the statement built for a frame with distinct column names,
    the columns marked PRIMARY KEY NOT NULL are the given key alone when it
    names a column, and none when no key is given or when it names no
    column: such a key is dropped without an error. *)
Theorem primary_key_marking (df : DataFrame) (table_name : string)
    (primary_key : option string) (foreign_keys : option (list foreign_key)) :
  NoDup (map fst (df_columns df)) ->
  let decl := table_declaration df table_name primary_key foreign_keys in
  create_table_schema df table_name primary_key foreign_keys
    = Return (sql_text (Create_table_if_not_exists decl))
  /\ map col_name (filter (fun c => col_primary_key c = true) (td_columns decl))
     = match primary_key with
       | Some k => if bool_decide (k ∈ map fst (df_columns df)) then [k] else []
       | None => []
       end.
Proof.
  intros Hnd decl. split; [apply create_table_schema_returns|].
  unfold decl, table_declaration. simpl.
  assert (Hf : map col_name
            (filter (fun c => col_primary_key c = true)
               (map (fun '(col, series) =>
                       mk_column col (declared_type series)
                         (bool_decide (Some col = primary_key)))
                  (df_columns df)))
          = filter (fun n => Some n = primary_key) (map fst (df_columns df))).
  { clear Hnd. induction (df_columns df) as [|[col series] cols IH]; [done|].
    simpl. rewrite !filter_cons. simpl.
    destruct (decide (Some col = primary_key)) as [Heq|Hne].
    - rewrite bool_decide_eq_true_2 by done.
      rewrite decide_True by done. simpl. by rewrite IH.
    - rewrite bool_decide_eq_false_2 by done.
      rewrite decide_False by done. done. }
  rewrite Hf. destruct primary_key as [k|].
  - by apply filter_eq_NoDup.
  - clear Hf Hnd. induction (map fst (df_columns df)) as [|n l IH]; [done|].
    rewrite filter_cons. destruct (decide (Some n = None)); [discriminate|].
    exact IH.
Qed.

Lemma primary_key_marking_witness :
  NoDup (map fst (df_columns Scenario.stock))
  /\ map col_name
       (filter (fun c => col_primary_key c = true)
          (td_columns (table_declaration Scenario.stock "stock" (Some "sku") None)))
     = ["sku"]
  /\ map col_name
       (filter (fun c => col_primary_key c = true)
          (td_columns (table_declaration Scenario.stock "stock" (Some "code") None)))
     = [].
Proof.
  assert (Hnd : NoDup (map fst (df_columns Scenario.stock))).
  { apply (bool_decide_unpack _). vm_compute. exact I. }
  split; [exact Hnd|]. split.
  - rewrite (proj2 (primary_key_marking Scenario.stock "stock" (Some "sku") None Hnd)).
    reflexivity.
  - rewrite (proj2 (primary_key_marking Scenario.stock "stock" (Some "code") None Hnd)).
    reflexivity.
Defined.

End MoreSchema.

(** ** Further properties of the loading, on any connection *)

Section MoreLoading.

Context {C : Type}.
Variable db_connect : string -> outcome C.
Variable db_execute : statement -> list value -> C -> outcome unit * C.
Variable db_commit : C -> outcome unit * C.
Variable db_rollback : C -> C.
Variable path_exists : string -> bool.
Variable read_csv : string -> outcome DataFrame.
Variable generate_summary : gmap string nat -> M C unit.

Abbreviation ingest_csv' :=
  (ingest_csv db_execute db_commit db_rollback path_exists read_csv).
Abbreviation main_on' :=
  (main_on db_connect db_execute db_commit db_rollback path_exists read_csv
     generate_summary).
Abbreviation main_body' :=
  (main_body db_execute db_commit db_rollback path_exists read_csv
     generate_summary).

Lemma for_loop_app {A S} (l1 l2 : list A) (body : S -> A -> M C S) acc (c : C) :
  for_loop (l1 ++ l2) body acc c
  = match for_loop l1 body acc c with
    | (Return a, c', out) =>
        let '(r, c'', out') := for_loop l2 body a c' in (r, c'', out ++ out')
    | (Raise e, c', out) => (Raise e, c', out)
    end.
Proof.
  revert acc c. induction l1 as [|x l1 IH]; intros acc c.
  - simpl. by destruct (for_loop l2 body acc c) as [[r c'] out].
  - simpl. rewrite !bind_run.
    destruct (body acc x c) as [[[a|e] c'] out]; [|done].
    rewrite IH.
    destruct (for_loop l1 body a c') as [[[a'|e] c''] out']; [|done].
    destruct (for_loop l2 body a' c'') as [[r c3] out3].
    by rewrite List.app_assoc.
Qed.

(** The index loop when no index raises anything but a [sqlite3.Error]. *)
Lemma index_loop table_name indexes (c : C) :
  (forall a e, a ∈ (index_attempts db_execute table_name indexes c).1 ->
               a.2 = Raise e -> isinstance e sqlite3_Error = true) ->
  create_indexes db_execute table_name indexes c
  = (Return tt, (index_attempts db_execute table_name indexes c).2,
     index_warnings (index_attempts db_execute table_name indexes c).1).
Proof.
  unfold create_indexes.
  revert c. induction indexes as [|col indexes IH]; intros c Hsql; [done|].
  simpl in *. rewrite bind_run, try_catch_run. unfold execute at 1.
  destruct (db_execute _ [] c) as [[[]|e] c'] eqn:Hex;
    destruct (index_attempts db_execute table_name indexes c')
      as [attempts c''] eqn:Hat; simpl in *.
  - rewrite IH; rewrite Hat; [done|].
    intros a e Ha. apply Hsql. by right.
  - assert (He : isinstance e sqlite3_Error = true).
    { apply (Hsql ("idx_" +:+ table_name +:+ "_" +:+ col, Raise e));
        [by left | done]. }
    rewrite He. simpl. rewrite IH; rewrite Hat; [done|].
    intros a e' Ha. apply Hsql. by right.
Qed.

Lemma index_attempts_names table_name indexes (c : C) :
  map fst (index_attempts db_execute table_name indexes c).1
  = map (fun col => "idx_" +:+ table_name +:+ "_" +:+ col) indexes.
Proof.
  revert c. induction indexes as [|col indexes IH]; intros c; simpl; [done|].
  destruct (db_execute _ [] c) as [r c'].
  specialize (IH c'). destruct (index_attempts db_execute table_name indexes c').
  simpl in *. by rewrite IH.
Qed.

(** X4: [create_indexes] sends one CREATE INDEX IF NOT EXISTS statement per
    column, named idx_<table>_<column>, in the order given; an index that
    raises a [sqlite3.Error] costs one warning line and the loop goes on, so
    the method returns normally however many indexes fail. *)
Theorem create_indexes_warns_and_goes_on
    (table_name : string) (indexes : list string) (c : C) :
  let sent := index_attempts db_execute table_name indexes c in
  (forall a e, a ∈ sent.1 -> a.2 = Raise e -> isinstance e sqlite3_Error = true) ->
  create_indexes db_execute table_name indexes c
    = (Return tt, sent.2, index_warnings sent.1)
  /\ map fst sent.1
     = map (fun col => "idx_" +:+ table_name +:+ "_" +:+ col) indexes.
Proof.
  intros sent Hsql. split; [by apply index_loop | apply index_attempts_names].
Qed.

(** X5: the row loop skips a row only for a [sqlite3.Error]: when a row
    raises anything else, the loop stops there with that exception, after
    the warnings of the rows refused before it, and the rows after it are
    never sent. *)
Theorem insert_rows_stops_on_other_error
    (df : DataFrame) (table_name : string) (c c' : C)
    (pre post : list (nat * list value)) (idx : nat) (row : list value)
    (e : exn) :
  let columns := map fst (df_columns df) in
  let sent := row_attempts db_execute (Insert_into table_name columns) pre c in
  iterrows (prepare_columns df) = pre ++ (idx, row) :: post ->
  (forall a e, a ∈ sent.1 -> at_result a = Raise e ->
               isinstance e sqlite3_Error = true) ->
  db_execute (Insert_into table_name columns) (map null_normalize row) sent.2
    = (Raise e, c') ->
  isinstance e sqlite3_Error = false ->
  insert_rows db_execute df table_name c
    = (Raise e, c', row_warnings columns sent.1).
Proof.
  intros columns sent Hrows Hsql Hex He.
  unfold insert_rows. rewrite prepare_columns_names. fold columns.
  rewrite Hrows, for_loop_app.
  rewrite (row_loop db_execute _ _ _ _ _ Hsql). fold sent.
  simpl. rewrite bind_run. unfold insert_row at 1.
  rewrite try_catch_run, bind_run, row_values_of_map.
  unfold execute at 1. rewrite Hex, He. simpl.
  by rewrite app_nil_r.
Qed.

(** X6: pandas' read errors become [ValueError]: the message names the
    file, the connection is the one given (no rollback, no statement), and
    only the processing line is printed. *)
Theorem ingest_csv_read_errors
    (csv_path table_name : string) (primary_key : option string)
    (foreign_keys : option (list foreign_key)) (indexes : option (list string))
    (c : C) (e : exn) :
  path_exists csv_path = true ->
  read_csv csv_path = Raise e ->
  (isinstance e EmptyDataError = true ->
   ingest_csv' csv_path table_name primary_key foreign_keys indexes c
   = (Raise (mk_exn ValueError ("CSV file is empty: " +:+ csv_path)),
      c, [Print (Processing csv_path)]))
  /\ (isinstance e EmptyDataError = false ->
      isinstance e ParserError = true ->
      ingest_csv' csv_path table_name primary_key foreign_keys indexes c
      = (Raise (mk_exn ValueError
                  ("Error parsing CSV file " +:+ csv_path +:+ ": " +:+ exn_msg e)),
         c, [Print (Processing csv_path)])).
Proof.
  intros Hp Hr. unfold ingest_csv. rewrite Hp. cbn [negb].
  rewrite bind_run, print_run, try_catch_run, bind_run, lift_run, Hr.
  split.
  - by intros ->.
  - by intros -> ->.
Qed.

(** *** What is recorded in the statistics *)

Lemma stats_after_app stats out1 out2 :
  stats_after stats (out1 ++ out2) = stats_after (stats_after stats out1) out2.
Proof.
  revert stats. induction out1 as [|[ev|t n] out1 IH]; intros stats; simpl; auto.
Qed.

Lemma stats_after_prints stats out :
  Forall (fun ef => is_print ef = true) out -> stats_after stats out = stats.
Proof.
  induction 1 as [|[ev|t n] out Hp _ IH]; simpl; [done|done|discriminate].
Qed.

Lemma quiet_bind {A B} (m : M C A) (k : A -> M C B) :
  quiet m -> (forall a, quiet (k a)) -> quiet (m ≫= k).
Proof.
  intros Hm Hk c. rewrite bind_run. specialize (Hm c).
  destruct (m c) as [[[a|e] c'] out]; [|done].
  specialize (Hk a c'). destruct (k a c') as [[r c''] out']. simpl in *.
  by apply Forall_app.
Qed.

Lemma quiet_try_catch {A} (body : M C A) handler :
  quiet body -> (forall e, quiet (handler e)) -> quiet (try_catch body handler).
Proof.
  intros Hm Hk c. rewrite try_catch_run. specialize (Hm c).
  destruct (body c) as [[[a|e] c'] out]; [done|].
  specialize (Hk e c'). destruct (handler e c') as [[r c''] out']. simpl in *.
  by apply Forall_app.
Qed.

Lemma quiet_for_loop {A S} (items : list A) (body : S -> A -> M C S) acc :
  (forall acc x, quiet (body acc x)) -> quiet (for_loop items body acc).
Proof.
  intros Hbody. revert acc. induction items as [|x items IH]; intros acc.
  - intros c. simpl. constructor.
  - simpl. apply quiet_bind; [apply Hbody | apply IH].
Qed.

Lemma quiet_print ev : quiet (@print C ev).
Proof. intros c. by repeat constructor. Qed.

Lemma quiet_ret {A} (a : A) : quiet (mret a : M C A).
Proof. intros c. constructor. Qed.

Lemma quiet_raise {A} e : quiet (@raise C A e).
Proof. intros c. constructor. Qed.

Lemma quiet_lift {A} (o : outcome A) : quiet (@lift C A o).
Proof. intros c. constructor. Qed.

Lemma quiet_execute st params : quiet (execute db_execute st params).
Proof. intros c. unfold execute. destruct (db_execute st params c). constructor. Qed.

Lemma quiet_rollback : quiet (rollback db_rollback).
Proof. intros c. constructor. Qed.

Lemma quiet_create_indexes table_name indexes :
  quiet (create_indexes db_execute table_name indexes).
Proof.
  apply quiet_for_loop. intros _ col.
  apply quiet_try_catch; [apply quiet_execute|].
  intros e. destruct (isinstance e sqlite3_Error);
    [apply quiet_print | apply quiet_raise].
Qed.

Lemma quiet_recreate_table df table_name pk fks indexes :
  quiet (recreate_table db_execute df table_name pk fks indexes).
Proof.
  unfold recreate_table.
  repeat (apply quiet_bind; [first [apply quiet_lift | apply quiet_execute
                                    | apply quiet_print]|intros ?]).
  destruct indexes as [[|ix indexes]|]; try apply quiet_ret.
  apply quiet_bind; [apply quiet_print|intros ?]. apply quiet_create_indexes.
Qed.

Lemma quiet_insert_rows df table_name :
  quiet (insert_rows db_execute df table_name).
Proof.
  apply quiet_for_loop. intros n [idx row]. unfold insert_row.
  apply quiet_try_catch.
  - apply quiet_bind; [apply quiet_execute | intros ?; apply quiet_ret].
  - intros e. destruct (isinstance e sqlite3_Error); [|apply quiet_raise].
    repeat (apply quiet_bind; [apply quiet_print|intros ?]). apply quiet_ret.
Qed.

Lemma ingest_csv_stats
    (csv_path table_name : string) (primary_key : option string)
    (foreign_keys : option (list foreign_key)) (indexes : option (list string))
    (c : C) (stats : gmap string nat) :
  let '(r, _, out) :=
    ingest_csv' csv_path table_name primary_key foreign_keys indexes c in
  stats_after stats out
  = match r with
    | Return n => <[table_name := n]> stats
    | Raise _ => stats
    end.
Proof.
  unfold ingest_csv. destruct (negb (path_exists csv_path)); [done|].
  rewrite bind_run, print_run, try_catch_run, bind_run, lift_run.
  destruct (read_csv csv_path) as [df|e0].
  2: { repeat case_match; simplify_eq; unfold raise, rollback, mbind, M_bind in *;
         simplify_eq; done. }
  unfold ingest_frame. rewrite bind_run, print_run, bind_run.
  assert (Hq1 := quiet_recreate_table (strip_columns df) table_name primary_key
                   foreign_keys indexes c).
  destruct (recreate_table _ _ _ _ _ _ c) as [[[[]|e1] c1] out1]; simpl in Hq1.
  2: { repeat case_match; simplify_eq; unfold raise, rollback, mbind, M_bind in *;
         simplify_eq; simpl; rewrite ?app_nil_r; by apply stats_after_prints. }
  rewrite bind_run.
  assert (Hq2 := quiet_insert_rows (strip_columns df) table_name c1).
  destruct (insert_rows _ _ _ c1) as [[[n|e2] c2] out2]; simpl in Hq2.
  2: { repeat case_match; simplify_eq; unfold raise, rollback, mbind, M_bind in *;
         simplify_eq; simpl; rewrite ?app_nil_r;
         apply stats_after_prints, Forall_app; by split. }
  rewrite bind_run. unfold commit at 1.
  destruct (db_commit c2) as [[[]|e3] c3].
  2: { repeat case_match; simplify_eq; unfold raise, rollback, mbind, M_bind in *;
         simplify_eq; simpl; rewrite ?app_nil_r;
         apply stats_after_prints, Forall_app; by split. }
  simpl. rewrite !stats_after_app. simpl.
  by rewrite (stats_after_prints _ out1), (stats_after_prints _ out2).
Qed.

(** X7: [ingest_csv] writes [ingestion_stats] exactly when it returns, and
    then the entry of its table is the count it returns; a call that raises
    leaves the statistics as they were. *)
Theorem ingest_csv_records_its_count
    (csv_path table_name : string) (primary_key : option string)
    (foreign_keys : option (list foreign_key)) (indexes : option (list string))
    (c : C) (stats : gmap string nat) :
  let '(r, _, out) :=
    ingest_csv' csv_path table_name primary_key foreign_keys indexes c in
  stats_after stats out
  = match r with
    | Return n => <[table_name := n]> stats
    | Raise _ => stats
    end.
Proof. apply ingest_csv_stats. Qed.

(** *** [main] *)

Abbreviation connect' := (connect db_connect db_execute).
Abbreviation load_entry :=
  (fun (_ : unit) (config : config_entry) =>
     ingest_csv' (cfg_csv config) (cfg_table config) (cfg_primary_key config)
       (cfg_foreign_keys config) (cfg_indexes config);;
     mret tt).

Lemma main_except_catches (e : exn) :
  exists ev, main_except e = Some (1, [Print ev])
             /\ ev ∈ [Error_message e; Database_error e; Unexpected_error e].
Proof.
  unfold main_except.
  destruct (isinstance e FileNotFoundError);
    [eexists; split; [done|rewrite !elem_of_cons; auto]|].
  destruct (isinstance e sqlite3_Error);
    [eexists; split; [done|rewrite !elem_of_cons; auto]|].
  assert (isinstance e Exception = true) as -> by apply isinstance_Exception.
  eexists; split; [done|rewrite !elem_of_cons; auto].
Qed.

Lemma load_entries_stats (config : list config_entry) (c : C)
    (stats : gmap string nat) :
  let '(r, _, out) := for_loop config load_entry tt c in
  match r with
  | Return _ =>
      dom (stats_after stats out)
      = dom stats ∪ list_to_set (map cfg_table config)
  | Raise _ => True
  end.
Proof.
  revert c stats. induction config as [|entry config IH]; intros c stats.
  - simpl. by rewrite (right_id_L ∅ (∪)).
  - simpl. rewrite !bind_run.
    assert (Hst := ingest_csv_stats (cfg_csv entry) (cfg_table entry)
                     (cfg_primary_key entry) (cfg_foreign_keys entry)
                     (cfg_indexes entry) c stats).
    destruct (ingest_csv' _ _ _ _ _ c) as [[[n|e] c1] out1]; [|done].
    simpl. rewrite app_nil_r.
    specialize (IH c1 (stats_after stats out1)).
    destruct (for_loop config load_entry tt c1) as [[[[]|e] c2] out2]; [|done].
    rewrite stats_after_app, IH, Hst, dom_insert_L. simpl.
    by rewrite (comm_L (∪) {[cfg_table entry]} (dom stats)), <- (assoc_L (∪)).
Qed.

(** X8: [main] closes the connection whenever [sqlite3.connect] gave one,
    whatever happens in between: the banner is the first thing printed and
    the closing line the last. When no connection was opened nothing is
    closed, and the exit status is 1. *)
Theorem main_closes_the_connection (config : list config_entry) :
  let '(status, conn, out) := main_on' config in
  match db_connect "ecommerce.db" with
  | Return _ =>
      is_Some conn /\ exists out', out = Print Banner :: out' ++ [Print Closed]
  | Raise _ =>
      conn = None /\ status = 1 /\ (Print Closed ∉ out)
      /\ exists out', out = Print Banner :: out'
  end.
Proof.
  unfold main_on, connect.
  destruct (db_connect "ecommerce.db") as [c0|e].
  - destruct (db_execute (Pragma_foreign_keys true) [] c0) as [[[]|e] c].
    + destruct (main_body' config c) as [[r c'] out1].
      destruct (exit_status r) as [status out2]. split; [by eexists|].
      exists ([Print (Connected "ecommerce.db")] ++ out1 ++ out2).
      simpl. by rewrite <- !List.app_assoc.
    + destruct (exit_status (Raise e)) as [status out2]. split; [by eexists|].
      exists ((if isinstance e sqlite3_Error then [Print (Connect_error e)]
               else []) ++ out2).
      simpl. by rewrite <- !List.app_assoc.
  - unfold exit_status.
    destruct (main_except_catches e) as (ev & -> & Hev). simpl.
    split; [done|]. split; [done|]. split; [|by eexists].
    rewrite ?app_nil_r. rewrite !elem_of_cons, elem_of_nil in Hev.
    destruct Hev as [->|[->|[->|[]]]];
      destruct (isinstance e sqlite3_Error); simpl;
      rewrite !elem_of_cons, elem_of_nil; intuition discriminate.
Qed.

(** X9: [main] stops at the first entry of the plan whose load raises: the
    entries before it are loaded, the ones after it are not touched, no
    summary is made, one error line is printed on the standard output, the
    connection is closed and the exit status is 1. *)
Theorem main_stops_at_first_failure
    (pre post : list config_entry) (entry : config_entry)
    (c c1 c2 : C) (conn : option C) (out0 out1 out2 : list effect) (e : exn) :
  connect' "ecommerce.db" = (Return c, conn, out0) ->
  for_loop pre load_entry tt c = (Return tt, c1, out1) ->
  ingest_csv' (cfg_csv entry) (cfg_table entry) (cfg_primary_key entry)
    (cfg_foreign_keys entry) (cfg_indexes entry) c1 = (Raise e, c2, out2) ->
  exists ev,
    ev ∈ [Error_message e; Database_error e; Unexpected_error e]
    /\ main_on' (pre ++ entry :: post)
       = (1, Some c2,
          [Print Banner] ++ out0 ++ out1 ++ out2 ++ [Print ev; Print Closed]).
Proof.
  intros Hconn Hpre Hload.
  destruct (main_except_catches e) as (ev & Hex & Hev). exists ev.
  split; [done|].
  unfold main_on. rewrite Hconn. unfold main_body.
  rewrite for_loop_app, Hpre. cbn [for_loop]. rewrite !bind_run, Hload.
  unfold exit_status. rewrite Hex. simpl.
  by rewrite <- !List.app_assoc.
Qed.

(** X10: when every load of the plan returns, the statistics that
    [generate_summary] receives have an entry for each table of the plan and
    for nothing else, and the summary runs on the connection the last load
    left. *)
Theorem main_summary_covers_the_plan
    (config : list config_entry) (c c1 : C) (out1 : list effect) :
  for_loop config load_entry tt c = (Return tt, c1, out1) ->
  dom (stats_after ∅ out1) = list_to_set (map cfg_table config)
  /\ main_body' config c
     = let '(r, c2, out2) :=
         (generate_summary (stats_after ∅ out1);;
          print Success;;
          print (Saved "ecommerce.db")) c1 in
       (r, c2, out1 ++ out2).
Proof.
  intros Hloop. split.
  - assert (H := load_entries_stats config c ∅). rewrite Hloop in H.
    by rewrite H, dom_empty_L, (left_id_L ∅ (∪)).
  - unfold main_body. by rewrite Hloop.
Qed.

(** *** The statements agree on the columns *)


(** *** The exceptions that leave [ingest_csv] *)

(** X12: whatever goes wrong, [ingest_csv] raises one of five exceptions:
    [FileNotFoundError] for a missing file, [ValueError] for an empty or
    malformed file, a plain [sqlite3.Error] in place of any of its
    subclasses, and a plain [Exception] in place of anything else; the
    last four carry the path of the file. *)
Theorem ingest_csv_raises_only
    (csv_path table_name : string) (primary_key : option string)
    (foreign_keys : option (list foreign_key)) (indexes : option (list string))
    (c c' : C) (e : exn) (out : list effect) :
  ingest_csv' csv_path table_name primary_key foreign_keys indexes c
    = (Raise e, c', out) ->
  e = mk_exn FileNotFoundError ("CSV file not found: " +:+ csv_path)
  \/ e = mk_exn ValueError ("CSV file is empty: " +:+ csv_path)
  \/ (exists e0,
        isinstance e0 ParserError = true
        /\ e = mk_exn ValueError
                 ("Error parsing CSV file " +:+ csv_path +:+ ": " +:+ exn_msg e0))
  \/ (exists e0,
        isinstance e0 sqlite3_Error = true
        /\ e = mk_exn sqlite3_Error
                 ("Database error while ingesting " +:+ csv_path
                  +:+ ": " +:+ exn_msg e0))
  \/ (exists e0,
        isinstance e0 sqlite3_Error = false
        /\ e = mk_exn Exception
                 ("Unexpected error while ingesting " +:+ csv_path
                  +:+ ": " +:+ exn_msg e0)).
Proof.
  unfold ingest_csv. destruct (negb (path_exists csv_path)).
  { intros [= <- _ _]. by left. }
  rewrite bind_run, print_run, try_catch_run.
  destruct ((df ← lift (read_csv csv_path);
             ingest_frame db_execute db_commit df table_name primary_key
               foreign_keys indexes) c) as [[[n|e0] c1] out1]; [discriminate|].
  destruct (isinstance e0 EmptyDataError).
  { intros [= <- _ _]. right. by left. }
  destruct (isinstance e0 ParserError) eqn:Hparse.
  { intros [= <- _ _]. do 2 right. left. by exists e0. }
  destruct (isinstance e0 sqlite3_Error) eqn:Hsql.
  { intros [= <- _ _]. do 3 right. left. by exists e0. }
  rewrite isinstance_Exception.
  intros [= <- _ _]. do 4 right. by exists e0.
Qed.

End MoreLoading.

(** ** Further properties of the load into SQLite *)

Section MoreSqlite.

Import Sqlite Rerun Aftermath.

Variable path_exists : string -> bool.
Variable read_csv : string -> outcome DataFrame.

Abbreviation sqlite_ingest_csv :=
  (ingest_csv sqlite_execute sqlite_commit sqlite_rollback path_exists read_csv).

(** X13: on a connection outside a transaction, a call of [ingest_csv]
    changes nothing but its own table and the indexes on it, whether it
    returns or raises, and it leaves the connection outside a transaction:
    what it did is committed or rolled back. *)
Theorem ingest_csv_touches_only_its_table
    (csv_path table_name : string) (primary_key : option string)
    (foreign_keys : option (list foreign_key)) (indexes : option (list string))
    (c c' : connection) (r : outcome nat) (out : list effect) :
  idle c ->
  sqlite_ingest_csv csv_path table_name primary_key foreign_keys indexes c
    = (r, c', out) ->
  idle c'
  /\ drop_from table_name (cn_db c') = drop_from table_name (cn_db c)
  /\ (forall t, t <> table_name ->
        db_tables (cn_db c') !! t = db_tables (cn_db c) !! t).
Proof.
  intros Hidle Hrun.
  assert (H : idle c'
              /\ drop_from table_name (cn_db c') = drop_from table_name (cn_db c)).
  { destruct (path_exists csv_path) eqn:Hp.
    2: { rewrite missing_source in Hrun by done. by injection Hrun as <- <- <-. }
    destruct (read_csv csv_path) as [df|e] eqn:Hr.
    - assert (Hwp := ingest_csv_wp path_exists read_csv csv_path table_name
                       primary_key foreign_keys indexes df c Hp Hr Hidle).
      unfold wp in Hwp. rewrite Hrun in Hwp. unfold rest_is in Hwp.
      destruct r; tauto.
    - destruct (ingest_csv_read_error path_exists read_csv csv_path table_name
                  primary_key foreign_keys indexes e c Hp Hr Hidle)
        as (e' & out' & Hrun').
      rewrite Hrun' in Hrun. by injection Hrun as <- <- <-. }
  destruct H as [Hidle' Hrest]. split; [done|]. split; [done|].
  intros t Ht.
  assert (Hl : forall db, db_tables (drop_from table_name db) !! t
                          = db_tables db !! t)
    by (intros db; by apply lookup_delete_ne).
  by rewrite <- (Hl (cn_db c')), Hrest, Hl.
Qed.

(** *** What a failed load leaves of the table *)










(** *** What stops the row loop *)










End MoreSqlite.

(** ** Further scenarios *)

Section MoreScenarios.

Import Sqlite Rerun Scenario Aftermath.

Lemma create_indexes_warns_and_goes_on_witness :
  let c := (ingest "items.csv" "items" (Some "id") fresh_connection).1.2 in
  let run := create_indexes sqlite_execute "items" ["name"; "colour"; "price"] c in
  (forall a e,
      a ∈ (index_attempts sqlite_execute "items" ["name"; "colour"; "price"] c).1 ->
      a.2 = Raise e -> isinstance e sqlite3_Error = true)
  /\ run.1.1 = Return tt
  /\ printed run.2
     = [Index_warning "idx_items_colour" (operational "no such column: colour")].
Proof.
  intros c run.
  set (sent := index_attempts sqlite_execute "items" ["name"; "colour"; "price"] c).
  assert (Hsql : forall a e, a ∈ sent.1 -> a.2 = Raise e ->
                             isinstance e sqlite3_Error = true).
  { intros a e Ha Hr. remember sent.1 as l eqn:Hl. vm_compute in Hl. subst l.
    repeat (apply elem_of_cons in Ha as [->|Ha]);
      try (by apply elem_of_nil in Ha);
      simpl in Hr; try discriminate Hr.
    injection Hr as <-. reflexivity. }
  split; [exact Hsql|].
  destruct (create_indexes_warns_and_goes_on sqlite_execute "items"
              ["name"; "colour"; "price"] c Hsql) as [Hrun _].
  unfold run. rewrite Hrun. split; [reflexivity|]. vm_compute. reflexivity.
Defined.

Lemma insert_rows_stops_on_other_error_witness :
  let c := (recreate_table sqlite_execute (strip_columns journal) "journal"
              (Some "entry") None None fresh_connection).1.2 in
  iterrows (prepare_columns journal)
  = [(0%nat, [VInt 1; VStr "rent"])]
    ++ (1%nat, [VInt (2 ^ 63); VStr "fees"]) :: [(2%nat, [VInt 3; VStr "tax"])]
  /\ isinstance too_large sqlite3_Error = false
  /\ (insert_rows sqlite_execute journal "journal" c).1.1 = Raise too_large.
Proof.
  intros c.
  assert (Hrows : iterrows (prepare_columns journal)
                  = [(0%nat, [VInt 1; VStr "rent"])]
                    ++ (1%nat, [VInt (2 ^ 63); VStr "fees"])
                       :: [(2%nat, [VInt 3; VStr "tax"])]) by reflexivity.
  split; [exact Hrows|]. split; [reflexivity|].
  set (columns := map fst (df_columns journal)).
  set (sent := row_attempts sqlite_execute (Insert_into "journal" columns)
                 [(0%nat, [VInt 1; VStr "rent"])] c).
  assert (Hsql : forall a e, a ∈ sent.1 -> at_result a = Raise e ->
                             isinstance e sqlite3_Error = true).
  { intros a e Ha Hr. remember sent.1 as l eqn:Hl. vm_compute in Hl. subst l.
    repeat (apply elem_of_cons in Ha as [->|Ha]);
      try (by apply elem_of_nil in Ha);
      simpl in Hr; discriminate Hr. }
  set (sends := sqlite_execute (Insert_into "journal" columns)
                  (map null_normalize [VInt (2 ^ 63); VStr "fees"]) sent.2).
  assert (Hsends : sends = (Raise too_large, sends.2))
    by (vm_compute; reflexivity).
  rewrite (insert_rows_stops_on_other_error sqlite_execute journal "journal"
             c sends.2 _ _ _ _ too_large Hrows Hsql Hsends eq_refl).
  reflexivity.
Defined.

Lemma ingest_csv_read_errors_witness :
  ingest_csv sqlite_execute sqlite_commit sqlite_rollback (fun _ => true)
    (fun _ => Raise (mk_exn EmptyDataError "No columns to parse from file"))
    "empty.csv" "empty" None None None fresh_connection
  = (Raise (mk_exn ValueError "CSV file is empty: empty.csv"),
     fresh_connection, [Print (Processing "empty.csv")])
  /\ ingest_csv sqlite_execute sqlite_commit sqlite_rollback (fun _ => true)
       (fun _ => Raise (mk_exn ParserError "Expected 2 fields, saw 3"))
       "torn.csv" "torn" None None None fresh_connection
     = (Raise (mk_exn ValueError
                 "Error parsing CSV file torn.csv: Expected 2 fields, saw 3"),
        fresh_connection, [Print (Processing "torn.csv")]).
Proof.
  split.
  - apply (proj1 (ingest_csv_read_errors sqlite_execute sqlite_commit
                    sqlite_rollback (fun _ => true)
                    (fun _ => Raise (mk_exn EmptyDataError
                                       "No columns to parse from file"))
                    "empty.csv" "empty" None None None fresh_connection
                    (mk_exn EmptyDataError "No columns to parse from file")
                    eq_refl eq_refl)).
    reflexivity.
  - apply (proj2 (ingest_csv_read_errors sqlite_execute sqlite_commit
                    sqlite_rollback (fun _ => true)
                    (fun _ => Raise (mk_exn ParserError "Expected 2 fields, saw 3"))
                    "torn.csv" "torn" None None None fresh_connection
                    (mk_exn ParserError "Expected 2 fields, saw 3")
                    eq_refl eq_refl)); reflexivity.
Defined.

Lemma main_stops_at_first_failure_witness :
  let run :=
    main_on (fun _ => Return (mk_conn empty_db empty_db false false))
      sqlite_execute sqlite_commit sqlite_rollback path_exists read_csv
      (fun _ => mret tt) plan in
  path_exists "orders.csv" = false
  /\ run.1.1 = 1
  /\ (exists c, run.1.2 = Some c
                /\ rows_of c "stock" = None
                /\ (length <$> rows_of c "items") = Some 3%nat)
  /\ last run.2 = Some (Print Closed).
Proof.
  intros run. split; [reflexivity|].
  set (db_connect := fun _ : string =>
                       Return (mk_conn empty_db empty_db false false)).
  set (summary := fun _ : gmap string nat => (mret tt : M connection unit)).
  set (before :=
         for_loop [mk_config "items.csv" "items" (Some "id") None None]
           (fun (_ : unit) (config : config_entry) =>
              ingest_csv sqlite_execute sqlite_commit sqlite_rollback
                path_exists read_csv (cfg_csv config) (cfg_table config)
                (cfg_primary_key config) (cfg_foreign_keys config)
                (cfg_indexes config);;
              mret tt)
           tt fresh_connection).
  assert (Hbefore : before = (Return tt, before.1.2, before.2))
    by (vm_compute; reflexivity).
  set (e := mk_exn FileNotFoundError "CSV file not found: orders.csv").
  assert (Hload :
    ingest_csv sqlite_execute sqlite_commit sqlite_rollback path_exists read_csv
      "orders.csv" "orders" (Some "order_id") None None before.1.2
    = (Raise e, before.1.2, [])) by (by apply missing_source).
  destruct (main_stops_at_first_failure db_connect sqlite_execute sqlite_commit
              sqlite_rollback path_exists read_csv summary
              [mk_config "items.csv" "items" (Some "id") None None]
              [mk_config "stock.csv" "stock" (Some "sku") None None]
              (mk_config "orders.csv" "orders" (Some "order_id") None None)
              fresh_connection before.1.2 before.1.2 (Some fresh_connection)
              [Print (Connected "ecommerce.db")] before.2 [] e
              eq_refl Hbefore Hload) as (ev & _ & Hmain).
  unfold run.
  change plan with
    ([mk_config "items.csv" "items" (Some "id") None None]
     ++ mk_config "orders.csv" "orders" (Some "order_id") None None
        :: [mk_config "stock.csv" "stock" (Some "sku") None None]).
  unfold db_connect, summary in Hmain. rewrite Hmain. cbn [fst snd].
  split; [reflexivity|]. split.
  - exists before.1.2. split; [reflexivity|]. split; vm_compute; reflexivity.
  - rewrite !List.app_assoc.
    change [Print ev; Print Closed] with ([Print ev] ++ [Print Closed]).
    rewrite List.app_assoc. apply last_snoc.
Defined.

Lemma main_summary_covers_the_plan_witness :
  let config := [mk_config "items.csv" "items" (Some "id") None None;
                 mk_config "stock.csv" "stock" (Some "sku") None None] in
  let loads :=
    for_loop config
      (fun (_ : unit) (config : config_entry) =>
         ingest_csv sqlite_execute sqlite_commit sqlite_rollback
           path_exists read_csv (cfg_csv config) (cfg_table config)
           (cfg_primary_key config) (cfg_foreign_keys config)
           (cfg_indexes config);;
         mret tt)
      tt fresh_connection in
  loads.1.1 = Return tt
  /\ dom (stats_after ∅ loads.2) = list_to_set ["items"; "stock"].
Proof.
  intros config loads.
  assert (Hloads : loads = (Return tt, loads.1.2, loads.2))
    by (vm_compute; reflexivity).
  split; [by rewrite Hloads|].
  apply (proj1 (main_summary_covers_the_plan sqlite_execute sqlite_commit
                  sqlite_rollback path_exists read_csv (fun _ => mret tt)
                  config fresh_connection loads.1.2 loads.2 Hloads)).
Defined.

Lemma ingest_csv_raises_only_witness :
  let run :=
    ingest_csv sqlite_execute sqlite_commit sqlite_rollback (fun _ => true)
      (fun _ => Return journal) "journal.csv" "journal" (Some "entry") None None
      fresh_connection in
  let e := mk_exn Exception
             ("Unexpected error while ingesting journal.csv: "
              +:+ "Python int too large to convert to SQLite INTEGER") in
  run.1.1 = Raise e
  /\ exn_cls e ∈ [FileNotFoundError; ValueError; sqlite3_Error; Exception].
Proof.
  intros run e.
  assert (Hrun : run = (Raise e, run.1.2, run.2)) by (vm_compute; reflexivity).
  split; [by rewrite Hrun|].
  destruct (ingest_csv_raises_only sqlite_execute sqlite_commit sqlite_rollback
              (fun _ => true) (fun _ => Return journal) "journal.csv" "journal"
              (Some "entry") None None fresh_connection run.1.2 e run.2 Hrun)
    as [H|[H|[(e0 & _ & H)|[(e0 & _ & H)|(e0 & _ & H)]]]];
    apply (f_equal exn_cls) in H; cbn [exn_cls] in H; rewrite H;
    rewrite !elem_of_cons; auto.
Defined.

Lemma ingest_csv_touches_only_its_table_witness :
  let c := (ingest "items.csv" "items" (Some "id") fresh_connection).1.2 in
  let c' := (ingest "stock.csv" "stock" (Some "sku") c).1.2 in
  idle c
  /\ idle c'
  /\ db_tables (cn_db c') !! "items" = db_tables (cn_db c) !! "items".
Proof.
  intros c c'.
  assert (Hidle : idle c) by (split; vm_compute; reflexivity).
  split; [exact Hidle|].
  set (run := ingest "stock.csv" "stock" (Some "sku") c).
  assert (Hrun : run = (run.1.1, run.1.2, run.2))
    by (clearbody run; by destruct run as [[? ?] ?]).
  destruct (ingest_csv_touches_only_its_table path_exists read_csv "stock.csv"
              "stock" (Some "sku") None None c run.1.2 run.1.1 run.2 Hidle Hrun)
    as (Hidle' & _ & Hrest).
  split; [exact Hidle'|]. by apply Hrest.
Defined.



End MoreScenarios.
